(** * MicroShop storefront: phone form, cart and order pages

    A shallow embedding of the page logic of the React storefront
    (web/src/pages/Payment.tsx, Cart.tsx, Payments.tsx, OrderDetails.tsx)
    and the properties its specification states about it. *)

From Stdlib Require Import ZArith QArith Qround Lia.
From stdpp Require Import base strings list gmap pretty.

Set Default Proof Using "Type".
#[local] Set Warnings "-register-all".

(** ** JavaScript strings

    A JavaScript string is a sequence of UTF-16 code units; [trim], [slice],
    [startsWith] and a regular expression without the [u] flag all work on
    code units. *)

Module JS.

Abbreviation jsstring := (list N) (only parsing).

(** The code units of an ASCII literal. *)
Definition js (s : string) : jsstring :=
  Ascii.N_of_ascii <$> String.list_ascii_of_string s.

(** The class [\d] of a regular expression: the code units of 0 to 9. *)
Definition isDigit (c : N) : bool := ((48 <=? c) && (c <=? 57))%N.

(** WhiteSpace and LineTerminator of ECMAScript, the code units that
    [String.prototype.trim] strips: TAB, LF, VT, FF, CR, SP, NBSP,
    U+1680, U+2000 to U+200A, U+2028, U+2029, U+202F, U+205F, U+3000
    and U+FEFF. *)
Definition isWhiteSpace (c : N) : bool :=
  (((9 <=? c) && (c <=? 13))
   || (c =? 32) || (c =? 160) || (c =? 5760)
   || ((8192 <=? c) && (c <=? 8202))
   || (c =? 8232) || (c =? 8233) || (c =? 8239) || (c =? 8287)
   || (c =? 12288) || (c =? 65279))%N.

Fixpoint trimStart (s : jsstring) : jsstring :=
  match s with
  | c :: s' => if isWhiteSpace c then trimStart s' else s
  | [] => []
  end.

Definition trimEnd (s : jsstring) : jsstring := rev (trimStart (rev s)).

(** [s.trim()] *)
Definition trim (s : jsstring) : jsstring := trimEnd (trimStart s).

(** [s.startsWith(p)] *)
Fixpoint startsWith (s p : jsstring) {struct p} : bool :=
  match p, s with
  | [], _ => true
  | _ :: _, [] => false
  | c :: p', d :: s' => (c =? d)%N && startsWith s' p'
  end.

(** [s.slice(n)] for a start index [n >= 0]. *)
Definition slice (n : nat) (s : jsstring) : jsstring := drop n s.

(** [s.replace(/\D/g, "")]: every code unit outside [\d] is deleted. *)
Definition replaceNonDigits (s : jsstring) : jsstring := List.filter isDigit s.


(** ** JavaScript numbers

    The pages use numbers only through operations that are exact on IEEE
    doubles: truthiness, [Math.floor], [Math.max], [Number.isFinite], [===]
    and [>]. No rounding takes place in any of them, so a number is modelled
    as NaN, an infinity or a rational; every finite double is a rational, and
    the operations below agree with the ones of the language on doubles.
    [-0] is identified with [0]: none of the operations tells them apart. *)

Inductive number : Type :=
  | NaN
  | PosInf
  | NegInf
  | Fin (q : Q).

Definition num (z : Z) : number := Fin (inject_Z z).

(** ToBoolean on a number: [0] and [NaN] are falsy. *)
Definition num_truthy (n : number) : bool :=
  match n with
  | NaN => false
  | PosInf | NegInf => true
  | Fin q => negb (Qeq_bool q 0)
  end.

(** [a || b] on numbers. *)
Definition num_or (a b : number) : number := if num_truthy a then a else b.

Definition Math_floor (n : number) : number :=
  match n with
  | Fin q => Fin (inject_Z (Qfloor q))
  | _ => n
  end.

Definition Math_max (a b : number) : number :=
  match a, b with
  | NaN, _ | _, NaN => NaN
  | PosInf, _ | _, PosInf => PosInf
  | NegInf, x | x, NegInf => x
  | Fin x, Fin y => if Qle_bool x y then Fin y else Fin x
  end.

Definition Number_isFinite (n : number) : bool :=
  match n with Fin _ => true | _ => false end.

(** [a === b] on numbers: NaN is not equal to itself. *)
Definition num_eq (a b : number) : bool :=
  match a, b with
  | Fin x, Fin y => Qeq_bool x y
  | PosInf, PosInf | NegInf, NegInf => true
  | _, _ => false
  end.

(** [a <= b] on numbers; false as soon as one side is NaN. *)
Definition num_le (a b : number) : bool :=
  match a, b with
  | NaN, _ | _, NaN => false
  | NegInf, _ | _, PosInf => true
  | Fin x, Fin y => Qle_bool x y
  | _, _ => false
  end.

(** [a > b] on numbers; false as soon as one side is NaN. *)
Definition num_gt (a b : number) : bool :=
  match a, b with
  | NaN, _ | _, NaN => false
  | Fin x, Fin y => negb (Qle_bool x y)
  | PosInf, (Fin _ | NegInf) => true
  | Fin _, NegInf => true
  | _, _ => false
  end.

(** ** JavaScript values

    What [JSON.parse] can return, and [undefined], which a missing property
    reads as. An object lists its own properties, each key once. *)

Inductive value : Type :=
  | VUndefined
  | VNull
  | VBool (b : bool)
  | VNumber (n : number)
  | VString (s : jsstring)
  | VArray (xs : list value)
  | VObject (props : list (jsstring * value)).

(** ToBoolean *)
Definition truthy (v : value) : bool :=
  match v with
  | VUndefined | VNull => false
  | VBool b => b
  | VNumber n => num_truthy n
  | VString s => negb (bool_decide (s = []))
  | VArray _ | VObject _ => true
  end.

(** [a || b] on values. *)
Definition or_else (a b : value) : value := if truthy a then a else b.

Fixpoint assoc (k : jsstring) (props : list (jsstring * value)) : option value :=
  match props with
  | [] => None
  | (k', v) :: rest => if bool_decide (k' = k) then Some v else assoc k rest
  end.

(** [x?.k] for a property name [k] that no built-in prototype defines and
    that is neither an index nor [length] (here: [product_id], [qty], [id]):
    an own property of an object, [undefined] on everything else. *)
Definition getProp (x : value) (k : jsstring) : value :=
  match x with
  | VObject props => default VUndefined (assoc k props)
  | _ => VUndefined
  end.

(** [v === n] for a number literal [n]. *)
Definition is_number (v : value) (n : Z) : bool :=
  match v with
  | VNumber m => num_eq m (num n)
  | _ => false
  end.

(** Conversions of the runtime. The two that format and read decimal
    numerals are left to the runtime: [Number::toString] and StringToNumber.
    A conversion that throws TypeError returns [None]. *)
Section Conversions.
Variable NumberToString : number -> jsstring.
Variable StringToNumber : jsstring -> number.

(** ToString. An object made by [JSON.parse] has no callable own
    property, so an own [toString] hides [Object.prototype.toString] and
    the conversion throws; [valueOf] of the prototype returns the object
    itself and never yields a primitive. An array is joined with commas,
    [null] and [undefined] elements reading as the empty string. *)
Fixpoint ToString (v : value) : option jsstring :=
  match v with
  | VUndefined => Some (js "undefined")
  | VNull => Some (js "null")
  | VBool b => Some (if b then js "true" else js "false")
  | VNumber n => Some (NumberToString n)
  | VString s => Some s
  | VObject props =>
      match assoc (js "toString") props with
      | Some _ => None
      | None => Some (js "[object Object]")
      end
  | VArray xs =>
      (fix join (l : list value) : option jsstring :=
         match l with
         | [] => Some []
         | x :: l' =>
             let elt :=
               match x with
               | VUndefined | VNull => Some []
               | _ => ToString x
               end in
             match elt, l' with
             | None, _ => None
             | Some s, [] => Some s
             | Some s, _ :: _ =>
                 match join l' with
                 | Some r => Some (s ++ js "," ++ r)
                 | None => None
                 end
             end
         end) xs
  end.

(** [Number(v)], that is ToNumber. *)
Definition ToNumber (v : value) : option number :=
  match v with
  | VUndefined => Some NaN
  | VNull => Some (num 0)
  | VBool b => Some (if b then num 1 else num 0)
  | VNumber n => Some n
  | VString s => Some (StringToNumber s)
  | VArray _ | VObject _ =>
      match ToString v with
      | Some s => Some (StringToNumber s)
      | None => None
      end
  end.
End Conversions.

End JS.

Import JS.

(** ** Records of the REST interface, as the pages declare them *)

Record OrderItem : Type := {
  oi_product_id : number;
  oi_qty : number;
  oi_unit_price : number;
}.

Record Order : Type := {
  order_id : number;
  order_status : jsstring;
  order_total : number;
  order_items : list OrderItem;
}.

Record PayPayload : Type := {
  shipping_address : jsstring;
  phone_number : jsstring;
}.

Record PayResult : Type := {
  pay_ok : bool;
  payment_id : number;
}.

Record PaymentRecord : Type := {
  pr_id : number;
  pr_order_id : number;
  pr_user_id : number;
  pr_amount : number;
  pr_status : jsstring;
}.

Record CartItem : Type := {
  product_id : number;
  qty : number;
}.

Record Product : Type := {
  prod_id : number;
  prod_name : jsstring;
  prod_price : number;
}.

(** ** The browser around a page: local storage, notifications, routing
    and the network

    A handler runs against a world made of the local storage and the trace
    of everything it did, in order. The trace records reads of the storage
    as well, so that what a handler did not do can be stated. *)

Module Effects.

Inductive verb : Type := GET | POST.

Inductive endpoint : Type := orderApi | paymentApi | productApi.

Inductive body : Type :=
  | NoBody
  | PayBody (p : PayPayload)
  | OrderBody (items : list CartItem).

Record request : Type := {
  req_api : endpoint;
  req_verb : verb;
  req_url : jsstring;
  req_body : body;
  req_authorization : option jsstring;
}.

Inductive event : Type :=
  | EvGetItem (key : jsstring)
  | EvSetItem (key val : jsstring)
  | EvRemoveItem (key : jsstring)
  | EvToastError (msg : value)
  | EvToastSuccess (msg : value)
  | EvNav (path : jsstring) (replace : bool)
  | EvRequest (r : request).

Record World : Type := {
  storage : gmap jsstring jsstring;
  trace : list event;
}.

(** What the [catch] clauses read from a rejected call:
    [e?.response?.status] and [e?.response?.data?.detail], each
    [undefined] when the error carries no response. *)
Record HttpError : Type := {
  err_status : value;
  err_detail : value;
}.

Inductive response (T : Type) : Type :=
  | Resolved (data : T)
  | Rejected (e : HttpError).
Arguments Resolved {T} data.
Arguments Rejected {T} e.

(** The services behind the three axios instances. An answer may depend
    on everything the page did before the call. *)
Record Api : Type := {
  get_order : list event -> request -> response Order;
  post_order : list event -> request -> response value;
  get_payments : list event -> request -> response (list PaymentRecord);
  post_payment : list event -> request -> response PayResult;
  get_products : list event -> request -> response (list Product);
}.

(** A handler of a page with component state [S]. *)
Definition M (S A : Type) : Type := S -> World -> A * S * World.

Definition ret {S A} (a : A) : M S A := fun s w => (a, s, w).

Definition bind {S A B} (m : M S A) (k : A -> M S B) : M S B :=
  fun s w => let '(a, s', w') := m s w in k a s' w'.

Definition log (e : event) (w : World) : World :=
  {| storage := storage w; trace := trace w ++ [e] |}.

Definition emit {S} (e : event) : M S unit :=
  fun s w => (tt, s, log e w).

Definition getState {S} : M S S := fun s w => (s, s, w).

Definition setState {S} (f : S -> S) : M S unit := fun s w => (tt, f s, w).

Definition localStorage_getItem {S} (k : jsstring) : M S (option jsstring) :=
  fun s w => (storage w !! k, s, log (EvGetItem k) w).

Definition localStorage_setItem {S} (k v : jsstring) : M S unit :=
  fun s w =>
    (tt, s, log (EvSetItem k v)
              {| storage := <[k := v]> (storage w); trace := trace w |}).

Definition localStorage_removeItem {S} (k : jsstring) : M S unit :=
  fun s w =>
    (tt, s, log (EvRemoveItem k)
              {| storage := delete k (storage w); trace := trace w |}).

Definition toast_error {S} (msg : value) : M S unit := emit (EvToastError msg).
Definition toast_success {S} (msg : value) : M S unit := emit (EvToastSuccess msg).
Definition nav {S} (path : jsstring) (replace : bool) : M S unit :=
  emit (EvNav path replace).

(** [await api.get(...)] and [await api.post(...)]: the request is logged
    and the service answers. *)
Definition call {S T} (service : list event -> request -> response T)
    (r : request) : M S (response T) :=
  fun s w => (service (trace w) r, s, log (EvRequest r) w).

(** [!token] for what [getItem] returned: absent or empty. *)
Definition falsy_str (o : option jsstring) : bool :=
  match o with
  | None | Some [] => true
  | Some (_ :: _) => false
  end.

(** The requests of a trace, in the order they were sent. *)
Definition requests (t : list event) : list request :=
  omap (fun e => match e with EvRequest r => Some r | _ => None end) t.

(** The storage reads of a trace. *)
Definition reads (t : list event) : list jsstring :=
  omap (fun e => match e with EvGetItem k => Some k | _ => None end) t.

End Effects.

Import Effects.

Declare Scope handler_scope.
Delimit Scope handler_scope with handler.
Notation "x <- c1 ;; c2" := (bind c1 (fun x => c2))
  (at level 100, c1 at next level, right associativity) : handler_scope.
Notation "c1 ;; c2" := (bind c1 (fun _ => c2))
  (at level 100, right associativity) : handler_scope.

#[local] Open Scope handler_scope.

(** ** What a page renders

    The tree a component returns, flattened to the nodes that carry text or
    an action. Numbers shown through [toFixed(2)] are kept as numbers. *)

Module View.

Inductive action : Type :=
  | DoLoad
  | DoLoadOrder
  | DoHandlePay.

Inductive node : Type :=
  | Heading (text : jsstring)
  | Text (text : jsstring)
  | Row (label : jsstring) (content : value)
  | Money (label : jsstring) (amount : number)
  | ItemRow (item : OrderItem)
  | TextArea (val : jsstring) (disabled : bool)
  | Input (val : jsstring) (disabled : bool)
  | LinkButton (to label : jsstring)
  | Button (label : jsstring) (disabled : bool) (onClick : action).

End View.

Import View.

(** ** web/src/pages/Payment.tsx *)

Module Payment.

Definition ADDRESS_KEY : jsstring := js "checkout_address".
Definition PHONE_KEY : jsstring := js "checkout_phone".

Definition normalizePhone (raw : jsstring) : jsstring :=
  let trimmed := trim raw in
  if startsWith trimmed (js "+")
  then js "+" ++ replaceNonDigits (slice 1 trimmed)
  else replaceNonDigits trimmed.

Definition isValidPhone (phone : jsstring) : bool :=
  let p := normalizePhone phone in
  let digits := if startsWith p (js "+") then slice 1 p else p in
  (9 <=? length digits) && (length digits <=? 15).

(** The [useState] cells of the component. *)
Record State : Type := {
  order : option Order;
  loading : bool;
  paying : bool;
  address : jsstring;
  phone : jsstring;
}.

Definition setOrder (o : option Order) : M State unit :=
  setState (fun s => {| order := o; loading := loading s; paying := paying s;
                        address := address s; phone := phone s |}).

Definition setLoading (b : bool) : M State unit :=
  setState (fun s => {| order := order s; loading := b; paying := paying s;
                        address := address s; phone := phone s |}).

Definition setPaying (b : bool) : M State unit :=
  setState (fun s => {| order := order s; loading := loading s; paying := b;
                        address := address s; phone := phone s |}).

Definition setAddress (a : jsstring) : M State unit :=
  setState (fun s => {| order := order s; loading := loading s; paying := paying s;
                        address := a; phone := phone s |}).

Definition setPhone (p : jsstring) : M State unit :=
  setState (fun s => {| order := order s; loading := loading s; paying := paying s;
                        address := address s; phone := p |}).

(** [!orderId] for the route parameter. *)
Definition no_orderId (orderId : option jsstring) : bool := falsy_str orderId.

Section Handlers.
Variable api : Api.
(** [useParams().orderId] *)
Variable orderId : option jsstring.

Definition getTokenOrRedirect : M State (option jsstring) :=
  token <- localStorage_getItem (js "token") ;;
  if falsy_str token then
    toast_error (VString (js "Please login first")) ;;
    nav (js "/login") false ;;
    ret None
  else ret token.

Definition handleAuthError : M State unit :=
  toast_error (VString (js "Session expired. Please login again.")) ;;
  localStorage_removeItem (js "token") ;;
  nav (js "/login") false.

Definition loadOrder (id : jsstring) : M State (option Order) :=
  token <- getTokenOrRedirect ;;
  match token with
  | None => ret None
  | Some token =>
      r <- call (get_order api)
             {| req_api := orderApi; req_verb := GET;
                req_url := js "/orders/" ++ id; req_body := NoBody;
                req_authorization := Some (js "Bearer " ++ token) |} ;;
      match r with
      | Resolved data => setOrder (Some data) ;; ret (Some data)
      | Rejected e =>
          let status := err_status e in
          if is_number status 401 || is_number status 403 then
            handleAuthError ;; ret None
          else
            toast_error (or_else (err_detail e) (VString (js "Failed to load order"))) ;;
            setOrder None ;;
            ret None
      end
  end.

(** The effect on [orderId]. *)
Definition onOrderId : M State unit :=
  match orderId with
  | Some (c :: id) =>
      setLoading true ;; _ <- loadOrder (c :: id) ;; setLoading false
  | _ => setLoading false ;; setOrder None
  end.

(** The effect on mount: [getItem(KEY) || ""]. *)
Definition loadSaved : M State unit :=
  savedAddress <- localStorage_getItem ADDRESS_KEY ;;
  savedPhone <- localStorage_getItem PHONE_KEY ;;
  setAddress (default [] savedAddress) ;;
  setPhone (default [] savedPhone).

(** The effects that persist the two fields as the user types. *)
Definition persistAddress : M State unit :=
  s <- getState ;; localStorage_setItem ADDRESS_KEY (address s).

Definition persistPhone : M State unit :=
  s <- getState ;; localStorage_setItem PHONE_KEY (phone s).

Definition isPayable (s : State) : bool :=
  match order s with
  | Some o => bool_decide (order_status o = js "CREATED")
  | None => false
  end.

Definition validateForm : M State bool :=
  s <- getState ;;
  if bool_decide (trim (address s) = []) then
    toast_error (VString (js "Please enter your shipping address")) ;; ret false
  else if bool_decide (trim (phone s) = []) then
    toast_error (VString (js "Please enter your phone number")) ;; ret false
  else if negb (isValidPhone (phone s)) then
    toast_error (VString (js "Phone number is invalid (use 9" ++ [8211%N]
                            ++ js "15 digits)")) ;;
    ret false
  else ret true.

Definition handlePay : M State (option PayResult) :=
  match orderId with
  | Some (c :: id) =>
      let orderId := c :: id in
      token <- getTokenOrRedirect ;;
      match token with
      | None => ret None
      | Some token =>
          valid <- validateForm ;;
          if negb valid then ret None else
          s <- getState ;;
          let payload := {| shipping_address := trim (address s);
                            phone_number := normalizePhone (phone s) |} in
          setPaying true ;;
          r <- call (post_payment api)
                 {| req_api := paymentApi; req_verb := POST;
                    req_url := js "/payments/" ++ orderId;
                    req_body := PayBody payload;
                    req_authorization := Some (js "Bearer " ++ token) |} ;;
          result <-
            match r with
            | Resolved data =>
                toast_success (VString (js "Payment successful "
                                          ++ [55356%N; 57225%N])) ;;
                _ <- loadOrder orderId ;;
                nav (js "/payments") true ;;
                ret (Some data)
            | Rejected e =>
                let status := err_status e in
                if is_number status 401 || is_number status 403 then
                  handleAuthError ;; ret None
                else
                  toast_error (or_else (err_detail e) (VString (js "Payment failed"))) ;;
                  ret None
            end ;;
          setPaying false ;;
          ret result
      end
  | _ => ret None
  end.

Definition back_to_shop : list node :=
  [LinkButton (js "/") (js "Back to shop")].

Definition render (s : State) : list node :=
  if loading s then [Text (js "Loading payment info" ++ [8230%N])]
  else if no_orderId orderId then
    [Heading (js "Payment"); Text (js "Missing order id.")] ++ back_to_shop
  else
    match order s with
    | None =>
        [Heading (js "Payment"); Text (js "Order not found.")] ++ back_to_shop
    | Some order =>
        [Heading (js "Payment");
         Row (js "Order ID") (VNumber (order_id order));
         Row (js "Status") (VString (order_status order));
         Money (js "Total") (order_total order);
         TextArea (address s) (paying s);
         Input (phone s) (paying s)]
        ++ (if isPayable s then
              [Button (if paying s then js "Processing" ++ [8230%N]
                       else js "Pay Now")
                      (paying s) DoHandlePay]
            else
              [Text (js "Order not in CREATED status " ++ [9989%N])])
        ++ back_to_shop
        ++ [Button (js "Refresh") (paying s) DoLoadOrder;
            Text (js "Tip: Payment history is available at /payments.")]
    end.
End Handlers.

End Payment.

(** ** web/src/pages/OrderDetails.tsx *)

Module OrderDetails.

Record State : Type := {
  loading : bool;
  order : option Order;
}.

Definition setLoading (b : bool) : M State unit :=
  setState (fun s => {| loading := b; order := order s |}).

Definition setOrder (o : option Order) : M State unit :=
  setState (fun s => {| loading := loading s; order := o |}).

Section Handlers.
Variable NumberToString : number -> jsstring.
Variable api : Api.
Variable orderId : option jsstring.

Definition load : M State unit :=
  token <- localStorage_getItem (js "token") ;;
  if falsy_str token then
    toast_error (VString (js "Please login first")) ;;
    nav (js "/login") false
  else
    match orderId with
    | Some (c :: id) =>
        setLoading true ;;
        r <- call (get_order api)
               {| req_api := orderApi; req_verb := GET;
                  req_url := js "/orders/" ++ (c :: id); req_body := NoBody;
                  req_authorization := None |} ;;
        match r with
        | Resolved data => setOrder (Some data)
        | Rejected e =>
            toast_error (or_else (err_detail e) (VString (js "Failed to load order"))) ;;
            setOrder None
        end ;;
        setLoading false
    | _ => setOrder None ;; setLoading false
    end.

Definition render (s : State) : list node :=
  [Heading (js "Order Details");
   LinkButton (js "/") (js "Back to shop");
   Button (js "Refresh") false DoLoad]
  ++ (if loading s then [Text (js "Loading" ++ [8230%N])]
      else
        match order s with
        | None => [Text (js "Order not found.")]
        | Some order =>
            [Row (js "Order ID") (VNumber (order_id order));
             Row (js "Status") (VString (order_status order));
             Money (js "Total") (order_total order)]
            ++ (ItemRow <$> order_items order)
            ++ (if bool_decide (order_status order = js "CREATED") then
                  [LinkButton (js "/payment/" ++ NumberToString (order_id order))
                              (js "Go to Payment")]
                else [])
        end)
  ++ [Text (js "This page calls GET /orders/{order_id} from order-service.")].
End Handlers.

End OrderDetails.

(** ** web/src/pages/Payments.tsx *)

Module Payments.

Record State : Type := {
  loading : bool;
  payments : list PaymentRecord;
}.

Definition setLoading (b : bool) : M State unit :=
  setState (fun s => {| loading := b; payments := payments s |}).

Definition setPayments (l : list PaymentRecord) : M State unit :=
  setState (fun s => {| loading := loading s; payments := l |}).

Section Handlers.
Variable api : Api.

Definition handleAuthError : M State unit :=
  toast_error (VString (js "Session expired. Please login again.")) ;;
  localStorage_removeItem (js "token") ;;
  nav (js "/login") false.

Definition load : M State unit :=
  token <- localStorage_getItem (js "token") ;;
  match token with
  | Some (c :: t) =>
      let token := c :: t in
      setLoading true ;;
      r <- call (get_payments api)
             {| req_api := paymentApi; req_verb := GET;
                req_url := js "/payments"; req_body := NoBody;
                req_authorization := Some (js "Bearer " ++ token) |} ;;
      match r with
      | Resolved data => setPayments data
      | Rejected e =>
          let status := err_status e in
          if is_number status 401 || is_number status 403 then
            handleAuthError
          else
            toast_error (or_else (err_detail e) (VString (js "Failed to load payments")))
      end ;;
      setLoading false
  | _ =>
      toast_error (VString (js "Please login first")) ;;
      nav (js "/login") false
  end.
End Handlers.

Section Rendering.
Variable NumberToString : number -> jsstring.

(** One entry of the history. *)
Definition row (p : PaymentRecord) : list node :=
  [Row (js "Payment #") (VNumber (pr_id p));
   Row (js "Order: #") (VNumber (pr_order_id p));
   Money (js "Amount") (pr_amount p);
   Text (pr_status p);
   LinkButton (js "/orders/" ++ NumberToString (pr_order_id p)) (js "View order")].

Definition render (s : State) : list node :=
  [Heading (js "Payment History");
   LinkButton (js "/") (js "Back to shop");
   Button (if loading s then js "Loading" ++ [8230%N] else js "Refresh")
          (loading s) DoLoad]
  ++ (if loading s then [Text (js "Loading" ++ [8230%N])]
      else
        match payments s with
        | [] => [Text (js "No payments yet.")]
        | _ :: _ => mjoin (row <$> payments s)
        end)
  ++ [Text (js "Tip: This page calls GET /payments from payment-service.")].
End Rendering.

End Payments.

(** ** web/src/pages/Cart.tsx *)

Module Cart.

(** One entry of [enriched]; [line_total], a floating-point product used
    for display only, is left out. *)
Record Enriched : Type := {
  item : CartItem;
  product : option Product;
  unit_price : number;
}.

Record State : Type := {
  items : list CartItem;
  productsById : gmap jsstring Product;
  loading : bool;
  checkingOut : bool;
}.

Definition setItems (l : list CartItem) : M State unit :=
  setState (fun s => {| items := l; productsById := productsById s;
                        loading := loading s; checkingOut := checkingOut s |}).

Definition setProductsById (m : gmap jsstring Product) : M State unit :=
  setState (fun s => {| items := items s; productsById := m;
                        loading := loading s; checkingOut := checkingOut s |}).

Definition setLoading (b : bool) : M State unit :=
  setState (fun s => {| items := items s; productsById := productsById s;
                        loading := b; checkingOut := checkingOut s |}).

Definition setCheckingOut (b : bool) : M State unit :=
  setState (fun s => {| items := items s; productsById := productsById s;
                        loading := loading s; checkingOut := b |}).

(** The object literal [{ product_id, qty }] as a value. *)
Definition item_value (i : CartItem) : value :=
  VObject [(js "product_id", VNumber (product_id i)); (js "qty", VNumber (qty i))].

Section Handlers.
(** The runtime: number formatting and reading, and the JSON codec;
    [JSON_parse] is [None] where [JSON.parse] throws SyntaxError. *)
Variable NumberToString : number -> jsstring.
Variable StringToNumber : jsstring -> number.
Variable JSON_parse : jsstring -> option value.
Variable JSON_stringify : value -> jsstring.
Variable api : Api.

Definition Number (v : value) : option number :=
  ToNumber NumberToString StringToNumber v.

(** The callback of [parsed.map]; [None] when a conversion throws. *)
Definition toItem (x : value) : option CartItem :=
  match Number (getProp x (js "product_id")) with
  | None => None
  | Some pid =>
      match Number (getProp x (js "qty")) with
      | None => None
      | Some q => Some {| product_id := pid; qty := q |}
      end
  end.

(** The callback of [filter]. *)
Definition keep (x : CartItem) : bool :=
  Number_isFinite (product_id x) && Number_isFinite (qty x)
  && num_gt (qty x) (num 0).

(** The body of [readCart] from the text read under [cart]; every
    exception of the [try] block ends in the empty list. *)
Definition parseCart (raw : option jsstring) : list CartItem :=
  match raw with
  | None | Some [] => []
  | Some raw =>
      match JSON_parse raw with
      | None => []
      | Some (VArray parsed) =>
          match mapM toItem parsed with
          | Some mapped => List.filter keep mapped
          | None => []
          end
      | Some _ => []
      end
  end.

Definition readCart {S} : M S (list CartItem) :=
  raw <- localStorage_getItem (js "cart") ;;
  ret (parseCart raw).

Definition writeCart {S} (items : list CartItem) : M S unit :=
  localStorage_setItem (js "cart") (JSON_stringify (VArray (item_value <$> items))).

(** The effect on mount, and the listener of [storage] events. *)
Definition onMount : M State unit :=
  l <- readCart ;; setItems l.

Definition onStorage (key : option jsstring) : M State unit :=
  if bool_decide (key = Some (js "cart")) then l <- readCart ;; setItems l
  else ret tt.

(** [map[p.id] = p] for every product of the catalogue, in order. *)
Definition byId (l : list Product) : gmap jsstring Product :=
  foldl (fun m p => <[NumberToString (prod_id p) := p]> m) ∅ l.

(** The effect that fetches the catalogue. *)
Definition run : M State unit :=
  setLoading true ;;
  r <- call (get_products api)
         {| req_api := productApi; req_verb := GET;
            req_url := js "/products"; req_body := NoBody;
            req_authorization := None |} ;;
  match r with
  | Resolved data => setProductsById (byId data)
  | Rejected e =>
      toast_error (or_else (err_detail e) (VString (js "Failed to load products")))
  end ;;
  setLoading false.

Definition enriched (s : State) : list Enriched :=
  (fun it =>
     let p := productsById s !! NumberToString (product_id it) in
     {| item := it; product := p;
        unit_price := match p with Some p => prod_price p | None => num 0 end |})
  <$> items s.

Definition setQty (pid : number) (qty_ : number) : M State unit :=
  s <- getState ;;
  let q := Math_max (num 1) (Math_floor (num_or qty_ (num 1))) in
  let next :=
    (fun x => if num_eq (product_id x) pid
              then {| product_id := product_id x; qty := q |} else x)
    <$> items s in
  setItems next ;;
  writeCart next.

Definition removeItem (pid : number) : M State unit :=
  s <- getState ;;
  let next := List.filter (fun x => negb (num_eq (product_id x) pid)) (items s) in
  setItems next ;;
  writeCart next ;;
  toast_success (VString (js "Removed from cart")).

Definition clearCart : M State unit :=
  setItems [] ;;
  localStorage_removeItem (js "cart") ;;
  toast_success (VString (js "Cart cleared")).

Definition checkout : M State unit :=
  s <- getState ;;
  match items s with
  | [] => toast_error (VString (js "Cart is empty"))
  | _ :: _ =>
      token <- localStorage_getItem (js "token") ;;
      if falsy_str token then
        toast_error (VString (js "Please login first")) ;;
        nav (js "/login") false
      else
        let missing :=
          List.filter (fun x => negb (bool_decide (is_Some (product x))))
                      (enriched s) in
        match missing with
        | _ :: _ =>
            toast_error (VString (js "Some items are unavailable (refresh products and try again)"))
        | [] =>
            setCheckingOut true ;;
            let payload :=
              OrderBody ((fun i => {| product_id := product_id i; qty := qty i |})
                         <$> items s) in
            r <- call (post_order api)
                   {| req_api := orderApi; req_verb := POST;
                      req_url := js "/orders"; req_body := payload;
                      req_authorization := None |} ;;
            match r with
            | Resolved data =>
                localStorage_removeItem (js "cart") ;;
                setItems [] ;;
                (* the template literals convert [res.data?.id]; a
                   conversion that throws lands in the catch clause *)
                match ToString NumberToString (getProp data (js "id")) with
                | Some id =>
                    toast_success (VString (js "Order created #" ++ id)) ;;
                    nav (js "/orders/" ++ id) false
                | None => toast_error (VString (js "Checkout failed"))
                end
            | Rejected e =>
                toast_error (or_else (err_detail e) (VString (js "Checkout failed")))
            end ;;
            setCheckingOut false
        end
  end.
End Handlers.

(** What the cart page renders. The total, a floating-point sum shown
    through [toFixed(2)], and the line totals are left out. *)
Inductive widget : Type :=
  | Title (text : jsstring)
  | Note (text : jsstring)
  | Link (to label : jsstring)
  | ClearButton (disabled : bool)
  | ProductLine (name : jsstring) (unit_price : number)
  | MinusButton (pid qty : number) (disabled : bool)
  | QtyInput (pid value : number)
  | PlusButton (pid qty : number)
  | RemoveButton (pid : number)
  | CheckoutButton (label : jsstring) (disabled : bool).

Section Rendering.
Variable NumberToString : number -> jsstring.

(** [productsById[it.product_id]] is there: the item is not missing. *)
Definition known (s : State) (it : CartItem) : bool :=
  bool_decide (is_Some (productsById s !! NumberToString (product_id it))).

(** [!items.length] *)
Definition no_items (s : State) : bool :=
  match items s with [] => true | _ :: _ => false end.

(** One line of the cart; the minus button is disabled for [qty <= 1]. *)
Definition line (x : Enriched) : list widget :=
  let pid := product_id (item x) in
  let q := qty (item x) in
  [ProductLine (match product x with
                | Some p => prod_name p
                | None => js "Product #" ++ NumberToString pid
                end)
               (unit_price x);
   MinusButton pid q (num_le q (num 1));
   QtyInput pid q;
   PlusButton pid q;
   RemoveButton pid].

Definition render (s : State) : list widget :=
  if loading s then [Title (js "Your Cart"); Note (js "Loading" ++ [8230%N])]
  else
    [Title (js "Your Cart");
     Link (js "/") (js "Continue shopping");
     ClearButton (no_items s)]
    ++ (if no_items s then [Note (js "Cart is empty.")]
        else
          mjoin (line <$> enriched NumberToString s)
          ++ [CheckoutButton (if checkingOut s then js "Processing" ++ [8230%N]
                              else js "Checkout")
                             (checkingOut s);
              Note (js "Note: Cart is stored in localStorage under cart. Checkout creates an order via order-service.")]).
End Rendering.

End Cart.

(** ** The words of the specification, for comparison with the code *)

(** "floor of the value clamped to at least 1", and 1 for a value that is
    not a number. *)
Definition clamped_floor (v : number) : number :=
  match v with
  | Fin x => num (Z.max 1 (Qfloor x))
  | PosInf => PosInf
  | NegInf | NaN => num 1
  end.

(** ** A runtime and two services to run the pages on *)

Module Sample.

Definition quote : jsstring := [34%N].

(** [Number::toString], exact on integers (a fraction prints as its floor). *)
Definition showNumber (n : number) : jsstring :=
  match n with
  | NaN => js "NaN"
  | PosInf => js "Infinity"
  | NegInf => js "-Infinity"
  | Fin q => js (pretty (Qfloor q))
  end.

(** StringToNumber on unsigned decimal integers; the empty string reads as
    0 and everything else as NaN. *)
Definition readNumber (s : jsstring) : number :=
  if forallb isDigit s
  then num (Z.of_N (foldl (fun acc c => acc * 10 + (c - 48))%N 0%N s))
  else NaN.

(** [JSON.stringify], without escapes in strings. *)
Fixpoint stringify (v : value) : jsstring :=
  match v with
  | VUndefined | VNull => js "null"
  | VBool b => if b then js "true" else js "false"
  | VNumber n => if Number_isFinite n then showNumber n else js "null"
  | VString s => quote ++ s ++ quote
  | VArray xs =>
      js "["
      ++ (fix go (l : list value) : jsstring :=
            match l with
            | [] => []
            | x :: l' =>
                stringify x ++ match l' with [] => [] | _ :: _ => js "," ++ go l' end
            end) xs
      ++ js "]"
  | VObject props =>
      js "{"
      ++ (fix go (l : list (jsstring * value)) : jsstring :=
            match l with
            | [] => []
            | (k, x) :: l' =>
                quote ++ k ++ quote ++ js ":" ++ stringify x
                ++ match l' with [] => [] | _ :: _ => js "," ++ go l' end
            end) props
      ++ js "}"
  end.

(** A stored cart with one good entry, one entry of quantity 0 and a
    [null], as text and as the value it parses to. *)
Definition cartValue : value :=
  VArray [VObject [(js "product_id", VNumber (num 1)); (js "qty", VNumber (num 2))];
          VObject [(js "product_id", VNumber (num 2)); (js "qty", VNumber (num 0))];
          VNull].

Definition cartText : jsstring := stringify cartValue.

(** [JSON.parse] on the texts used below; any other text is taken as
    malformed. *)
Definition parse (raw : jsstring) : option value :=
  if bool_decide (raw = cartText) then Some cartValue
  else if bool_decide (raw = js "null") then Some VNull
  else if bool_decide (raw = js "{}") then Some (VObject [])
  else None.

Definition order7 : Order :=
  {| order_id := num 7; order_status := js "CREATED"; order_total := num 30;
     order_items := [{| oi_product_id := num 1; oi_qty := num 2;
                        oi_unit_price := num 15 |}] |}.

Definition candy : Product :=
  {| prod_id := num 1; prod_name := js "Candy"; prod_price := num 15 |}.

(** Services that accept every call. *)
Definition accepting : Api :=
  {| get_order := fun _ _ => Resolved order7;
     post_order := fun _ _ => Resolved (VObject [(js "id", VNumber (num 7))]);
     get_payments := fun _ _ => Resolved [];
     post_payment := fun _ _ => Resolved {| pay_ok := true; payment_id := num 1 |};
     get_products := fun _ _ => Resolved [candy] |}.

(** Services that reject every call with one status and no detail. *)
Definition rejecting (status : Z) : Api :=
  let e := {| err_status := VNumber (num status); err_detail := VUndefined |} in
  {| get_order := fun _ _ => Rejected e;
     post_order := fun _ _ => Rejected e;
     get_payments := fun _ _ => Rejected e;
     post_payment := fun _ _ => Rejected e;
     get_products := fun _ _ => Rejected e |}.

(** A browser of a user who is logged in, with a cart in the storage. *)
Definition loggedIn : World :=
  {| storage := {[ js "token" := js "t0k3n"; js "cart" := cartText ]};
     trace := [] |}.

Definition paymentForm : Payment.State :=
  {| Payment.order := Some order7; Payment.loading := false;
     Payment.paying := false;
     Payment.address := js " 12 Candy Street ";
     Payment.phone := js "+84 90 123 4567" |}.

Definition cartPage : Cart.State :=
  {| Cart.items := [{| product_id := num 1; qty := num 2 |}];
     Cart.productsById := {[ js "1" := candy ]};
     Cart.loading := false; Cart.checkingOut := false |}.

Definition emptyCart : Cart.State :=
  {| Cart.items := []; Cart.productsById := {[ js "1" := candy ]};
     Cart.loading := false; Cart.checkingOut := false |}.

Definition orderPage : OrderDetails.State :=
  {| OrderDetails.loading := false; OrderDetails.order := Some order7 |}.

(** A browser with nothing in the storage. *)
Definition fresh : World := {| storage := ∅; trace := [] |}.

(** [parse], knowing the text that [writeCart] stores for the sample
    cart page as well. *)
Definition parseWritten (raw : jsstring) : option value :=
  let written := VArray (Cart.item_value <$> Cart.items cartPage) in
  if bool_decide (raw = stringify written) then Some written else parse raw.

(** A rejection with a status and a detail. *)
Definition refusal (status : Z) (detail : jsstring) : HttpError :=
  {| err_status := VNumber (num status); err_detail := VString detail |}.

(** Services that accept the payment and refuse everything else with a
    status. *)
Definition payingOnly (status : Z) : Api :=
  {| get_order := fun _ _ => Rejected (refusal status (js "no"));
     post_order := fun _ _ => Rejected (refusal status (js "no"));
     get_payments := fun _ _ => Rejected (refusal status (js "no"));
     post_payment := fun _ _ => Resolved {| pay_ok := true; payment_id := num 1 |};
     get_products := fun _ _ => Rejected (refusal status (js "no")) |}.

Definition historyPage : Payments.State :=
  {| Payments.loading := true; Payments.payments := [] |}.

Definition payment1 : PaymentRecord :=
  {| pr_id := num 1; pr_order_id := num 7; pr_user_id := num 3;
     pr_amount := num 30; pr_status := js "SUCCESS" |}.

End Sample.

(** * Properties *)

(** ** The model at work *)

Section Examples.
Import Sample.

Example normalizePhone_brackets :
  Payment.normalizePhone (js "  +1 (555) 010-9999 ") = js "+15550109999".
Proof. reflexivity. Qed.

(** A no-break space and a byte order mark are trimmed like blanks. *)
Example normalizePhone_unicode_space :
  Payment.normalizePhone ([160; 65279]%N ++ js "+84 90") = js "+8490".
Proof. reflexivity. Qed.

(** A [+] that is not in front is deleted like any other sign. *)
Example normalizePhone_inner_plus :
  Payment.normalizePhone (js "84+90") = js "8490"
  /\ Payment.normalizePhone (js "++84") = js "+84"
  /\ Payment.normalizePhone (js "call me") = [].
Proof. by split_and!. Qed.

Example isValidPhone_bounds :
  Payment.isValidPhone (js "090-123-4567") = true
  /\ Payment.isValidPhone (js "+84 90 123 4567") = true
  /\ Payment.isValidPhone (js "12345678") = false
  /\ Payment.isValidPhone (js "123456789") = true
  /\ Payment.isValidPhone (js "123456789012345") = true
  /\ Payment.isValidPhone (js "1234567890123456") = false
  /\ Payment.isValidPhone (js "+") = false.
Proof. by split_and!. Qed.

Example quantity_of_fraction :
  Math_max (num 1) (Math_floor (num_or (Fin (5 # 2)) (num 1))) = num 2
  /\ Math_max (num 1) (Math_floor (num_or (Fin (-7 # 2)) (num 1))) = num 1
  /\ Math_max (num 1) (Math_floor (num_or (Fin (1 # 2)) (num 1))) = num 1.
Proof. by split_and!. Qed.

Example cartText_is_json :
  cartText
  = js "[{" ++ quote ++ js "product_id" ++ quote ++ js ":1,"
       ++ quote ++ js "qty" ++ quote ++ js ":2},{"
       ++ quote ++ js "product_id" ++ quote ++ js ":2,"
       ++ quote ++ js "qty" ++ quote ++ js ":0},null]".
Proof. reflexivity. Qed.

(** The entry of quantity 0 and the [null] are dropped. *)
Example parseCart_sample :
  Cart.parseCart showNumber readNumber parse (Some cartText)
  = [{| product_id := num 1; qty := num 2 |}].
Proof. reflexivity. Qed.

Example toItem_conversions :
  Cart.toItem showNumber readNumber VNull
  = Some {| product_id := NaN; qty := NaN |}
  /\ Cart.toItem showNumber readNumber
       (VObject [(js "product_id", VString (js "12")); (js "qty", VArray [VNumber (num 3)])])
     = Some {| product_id := num 12; qty := num 3 |}
  /\ Cart.toItem showNumber readNumber
       (VObject [(js "product_id", VNumber (num 1));
                 (js "qty", VObject [(js "toString", VNumber (num 1))])])
     = None.
Proof. by split_and!. Qed.

Example handlePay_sample :
  Payment.handlePay accepting (Some (js "7")) paymentForm loggedIn
  = (Some {| pay_ok := true; payment_id := num 1 |},
     paymentForm,
     {| storage := storage loggedIn;
        trace :=
          [EvGetItem (js "token");
           EvRequest {| req_api := paymentApi; req_verb := POST;
                        req_url := js "/payments/7";
                        req_body := PayBody {| shipping_address := js "12 Candy Street";
                                               phone_number := js "+84901234567" |};
                        req_authorization := Some (js "Bearer t0k3n") |};
           EvToastSuccess (VString (js "Payment successful " ++ [55356; 57225]%N));
           EvGetItem (js "token");
           EvRequest {| req_api := orderApi; req_verb := GET;
                        req_url := js "/orders/7"; req_body := NoBody;
                        req_authorization := Some (js "Bearer t0k3n") |};
           EvNav (js "/payments") true] |}).
Proof. reflexivity. Qed.

Example checkout_sample :
  Cart.checkout showNumber accepting cartPage loggedIn
  = (tt, emptyCart,
     {| storage := delete (js "cart") (storage loggedIn);
        trace :=
          [EvGetItem (js "token");
           EvRequest {| req_api := orderApi; req_verb := POST;
                        req_url := js "/orders";
                        req_body := OrderBody [{| product_id := num 1; qty := num 2 |}];
                        req_authorization := None |};
           EvRemoveItem (js "cart");
           EvToastSuccess (VString (js "Order created #7"));
           EvNav (js "/orders/7") false] |}).
Proof. reflexivity. Qed.
End Examples.

(** ** Phone normalisation and validation *)

Section Phone.
Import Payment.

Lemma isDigit_not_whitespace c : isDigit c = true -> isWhiteSpace c = false.
Proof.
  unfold isDigit, isWhiteSpace.
  rewrite andb_true_iff, !N.leb_le.
  rewrite !orb_false_iff, !andb_false_iff, !N.eqb_neq, !N.leb_gt. lia.
Qed.

Lemma whitespace_not_digit c : isWhiteSpace c = true -> isDigit c = false.
Proof.
  intros Hw. destruct (isDigit c) eqn:Hd; [|done].
  apply isDigit_not_whitespace in Hd. congruence.
Qed.

Lemma filter_digits_trimStart s :
  List.filter isDigit (trimStart s) = List.filter isDigit s.
Proof.
  induction s as [|c s IH]; [done|]. simpl.
  destruct (isWhiteSpace c) eqn:Hw; [|done].
  by rewrite (whitespace_not_digit c Hw).
Qed.

Lemma filter_digits_trim s :
  List.filter isDigit (trim s) = List.filter isDigit s.
Proof.
  unfold trim, trimEnd.
  rewrite filter_rev, filter_digits_trimStart, filter_rev, rev_involutive.
  apply filter_digits_trimStart.
Qed.

Lemma startsWith_plus_inv s :
  startsWith s (js "+") = true -> exists r, s = 43%N :: r.
Proof.
  change (js "+") with [43%N].
  destruct s as [|c r]; [done|]. cbn [startsWith].
  rewrite andb_true_r. intros <-%N.eqb_eq. by exists r.
Qed.

Lemma startsWith_plus_digit c s :
  isDigit c = true -> startsWith (c :: s) (js "+") = false.
Proof.
  intros Hd. change (js "+") with [43%N]. cbn [startsWith].
  rewrite andb_true_r. apply N.eqb_neq. intros <-. done.
Qed.

Lemma normalizePhone_shape raw :
  normalizePhone raw
  = (if startsWith (trim raw) (js "+") then js "+" else [])
      ++ List.filter isDigit raw.
Proof.
  unfold normalizePhone, replaceNonDigits, slice.
  destruct (startsWith (trim raw) (js "+")) eqn:Hs.
  - destruct (startsWith_plus_inv _ Hs) as [r Hr].
    rewrite <- (filter_digits_trim raw), Hr. done.
  - simpl. apply filter_digits_trim.
Qed.

Lemma filter_digits_idem s :
  List.filter isDigit (List.filter isDigit s) = List.filter isDigit s.
Proof. apply forallb_filter_id, forallb_filter. Qed.

Lemma trimStart_id s :
  Forall (fun c => isWhiteSpace c = false) s -> trimStart s = s.
Proof. destruct 1 as [|c s Hc _]; [done|]. simpl. by rewrite Hc. Qed.

Lemma trim_id s :
  Forall (fun c => isWhiteSpace c = false) s -> trim s = s.
Proof.
  intros Hs. unfold trim, trimEnd. rewrite (trimStart_id s Hs).
  rewrite trimStart_id by by apply Forall_rev.
  apply rev_involutive.
Qed.

Lemma filter_digits_no_whitespace s :
  Forall (fun c => isWhiteSpace c = false) (List.filter isDigit s).
Proof.
  apply List.Forall_forall. intros c [_ Hc]%filter_In.
  by apply isDigit_not_whitespace.
Qed.

Lemma normalizePhone_no_whitespace raw :
  Forall (fun c => isWhiteSpace c = false) (normalizePhone raw).
Proof.
  rewrite normalizePhone_shape. apply Forall_app. split.
  - destruct (startsWith _ _); repeat constructor.
  - apply filter_digits_no_whitespace.
Qed.

Lemma startsWith_plus_filtered s :
  startsWith (List.filter isDigit s) (js "+") = false.
Proof.
  destruct (List.filter isDigit s) as [|c r] eqn:Hf; [done|].
  apply startsWith_plus_digit.
  assert (Hin : In c (List.filter isDigit s)) by (rewrite Hf; by left).
  by apply filter_In in Hin as [_ ?].
Qed.

Lemma startsWith_normalized raw :
  startsWith (normalizePhone raw) (js "+") = startsWith (trim raw) (js "+").
Proof.
  rewrite normalizePhone_shape.
  destruct (startsWith (trim raw) (js "+")); [done|].
  apply startsWith_plus_filtered.
Qed.

Lemma filter_digits_normalized raw :
  List.filter isDigit (normalizePhone raw) = List.filter isDigit raw.
Proof.
  rewrite normalizePhone_shape, List.filter_app, filter_digits_idem.
  by destruct (startsWith _ _).
Qed.

Lemma normalizePhone_idempotent raw :
  normalizePhone (normalizePhone raw) = normalizePhone raw.
Proof.
  rewrite (normalizePhone_shape (normalizePhone raw)).
  rewrite (trim_id _ (normalizePhone_no_whitespace raw)).
  rewrite startsWith_normalized, filter_digits_normalized.
  symmetry. apply normalizePhone_shape.
Qed.

Lemma isValidPhone_normalized raw :
  isValidPhone (normalizePhone raw) = isValidPhone raw.
Proof. unfold isValidPhone. by rewrite normalizePhone_idempotent. Qed.

(** C1: [normalizePhone] deletes every code unit that is not a digit and
    keeps one leading [+] exactly when the trimmed input starts with [+]:
    the result is that sign followed by the digits of the input, in
    order. The two inputs of the specification give ["0901234567"] and
    ["+84901234567"]. *)
Theorem normalizePhone_keeps_sign_and_digits :
  (forall raw : jsstring,
     normalizePhone raw
     = (if startsWith (trim raw) (js "+") then js "+" else [])
         ++ List.filter isDigit raw)
  /\ normalizePhone (js "090-123-4567") = js "0901234567"
  /\ normalizePhone (js "+84 90 123 4567") = js "+84901234567".
Proof.
  split; [exact normalizePhone_shape|]. split; reflexivity.
Qed.

(** C2: [isValidPhone] is true exactly when the normalised form holds at
    least 9 and at most 15 digits, a leading [+] not counted; that count
    is the number of digits of the input. ["12345"] is rejected. *)
Theorem isValidPhone_counts_digits :
  (forall phone : jsstring,
     let n := length (List.filter isDigit (normalizePhone phone)) in
     isValidPhone phone = (9 <=? n) && (n <=? 15)
     /\ n = length (normalizePhone phone)
            - (if startsWith (normalizePhone phone) (js "+") then 1 else 0)
     /\ n = length (List.filter isDigit phone))
  /\ isValidPhone (js "12345") = false.
Proof.
  split; [|reflexivity].
  intros phone n. subst n. rewrite filter_digits_normalized.
  unfold isValidPhone.
  rewrite startsWith_normalized, normalizePhone_shape.
  unfold slice.
  destruct (startsWith (trim phone) (js "+")); cbn [drop app js];
    repeat split; try done; cbn; lia.
Qed.

(** C10: normalising twice is normalising once, and a phone number is
    valid exactly when its normalised form is. *)
Theorem normalizePhone_idempotent_validity_stable :
  forall s : jsstring,
    normalizePhone (normalizePhone s) = normalizePhone s
    /\ isValidPhone s = isValidPhone (normalizePhone s).
Proof.
  intros s. split; [apply normalizePhone_idempotent|].
  symmetry. apply isValidPhone_normalized.
Qed.
End Phone.

(** ** The payment actions *)

(** Case analysis on a membership in a list built from [++], [::] and
    [<$>]. *)
Ltac members H :=
  repeat match type of H with
         | _ ∈ _ ++ _ => apply elem_of_app in H as [H|H]
         | _ ∈ _ :: _ => apply elem_of_cons in H as [H|H]
         | _ ∈ [] => by apply elem_of_nil in H
         | _ ∈ _ <$> _ => apply list_elem_of_fmap in H as (?&H&_)
         end.

Section Actions.
Variable NumberToString : number -> jsstring.

Lemma isPayable_created (p : Payment.State) (o : Order) :
  Payment.order p = Some o ->
  Payment.isPayable p = bool_decide (order_status o = js "CREATED").
Proof. unfold Payment.isPayable. by intros ->. Qed.

(** C4: once an order is loaded, the order-details page shows the link
    "Go to Payment" exactly when the status of the order is the string
    CREATED, and the payment page shows the button that runs [handlePay]
    under the same condition; with any other status neither is rendered.
    The button reads "Pay Now" and is enabled while no payment is being
    submitted. *)
Theorem payment_actions_iff_created :
  forall (orderId : option jsstring) (d : OrderDetails.State)
         (p : Payment.State) (o : Order),
    OrderDetails.loading d = false -> OrderDetails.order d = Some o ->
    Payment.loading p = false -> Payment.order p = Some o ->
    Payment.no_orderId orderId = false ->
    ((exists to, LinkButton to (js "Go to Payment")
                   ∈ OrderDetails.render NumberToString d)
     <-> order_status o = js "CREATED")
    /\ ((exists label disabled, Button label disabled DoHandlePay
                                  ∈ Payment.render orderId p)
        <-> order_status o = js "CREATED")
    /\ (Button (js "Pay Now") false DoHandlePay ∈ Payment.render orderId p
        <-> order_status o = js "CREATED" /\ Payment.paying p = false)
    /\ (LinkButton (js "/payment/" ++ NumberToString (order_id o))
                   (js "Go to Payment")
          ∈ OrderDetails.render NumberToString d
        <-> order_status o = js "CREATED").
Proof.
  intros orderId d p o Hdl Hdo Hpl Hpo Hid.
  unfold OrderDetails.render, Payment.render, Payment.back_to_shop.
  rewrite (isPayable_created p o Hpo), Hdl, Hdo, Hpl, Hpo, Hid.
  assert (Hback : js "Back to shop" <> js "Go to Payment") by done.
  assert (Hproc : js "Processing" ++ [8230%N] <> js "Pay Now") by done.
  case_bool_decide as Hst; destruct (Payment.paying p);
    split_and!; (split; [intros Hin | intros Hs]);
    repeat (lazymatch type of Hin with ex _ => destruct Hin as [? Hin] end);
    try done;
    try (exfalso; members Hin; by simplify_eq);
    try (members Hin; by simplify_eq);
    try (by destruct Hs);
    repeat eexists;
    repeat (rewrite ?elem_of_app, ?elem_of_cons); eauto 15.
Qed.
End Actions.

(** ** The cart *)

Section CartQuantity.
Variable JSON_stringify : value -> jsstring.

Lemma Qle_bool_inject (a b : Z) : Qle_bool (inject_Z a) (inject_Z b) = (a <=? b)%Z.
Proof.
  apply eq_true_iff_eq. rewrite Qle_bool_iff, <- Zle_Qle. symmetry. apply Z.leb_le.
Qed.

Lemma Math_max_1_int (f : Z) :
  Math_max (num 1) (num f) = num (Z.max 1 f).
Proof.
  unfold num. cbn [Math_max]. rewrite Qle_bool_inject.
  destruct (Z.leb_spec 1 f); f_equal; f_equal; lia.
Qed.

(** What [setQty] computes is what the specification words. *)
Lemma setQty_quantity (v : number) :
  Math_max (num 1) (Math_floor (num_or v (num 1))) = clamped_floor v.
Proof.
  destruct v as [| | |x]; try reflexivity.
  unfold num_or, num_truthy.
  destruct (Qeq_bool x 0) eqn:Hx; cbn [negb Math_floor clamped_floor].
  - apply Qeq_bool_eq in Hx. rewrite Hx.
    change (Qfloor 0) with 0%Z. reflexivity.
  - apply (Math_max_1_int (Qfloor x)).
Qed.

Lemma clamped_floor_ge_1 (v : number) : num_le (num 1) (clamped_floor v) = true.
Proof.
  destruct v as [| | |x]; try reflexivity.
  cbn. rewrite Qle_bool_inject. apply Z.leb_le. lia.
Qed.

Lemma clamped_floor_nonpositive (x : Q) : (x <= 0)%Q -> clamped_floor (Fin x) = num 1.
Proof.
  intros Hx. cbn. f_equal.
  assert (Qfloor x <= 0)%Z; [|lia].
  change 0%Z with (Qfloor 0). by apply Qfloor_resp_le.
Qed.

(** C6: for every product id and every requested value, [setQty] gives
    the entries of that product the floor of the value clamped to at
    least 1, in the item list and in the text written under [cart]; the
    values 0, NaN and every negative value give exactly 1. The stored
    quantity is at least 1, every other entry is kept, and so a cart whose
    quantities are all at least 1 stays so. *)
Theorem setQty_stores_clamped_floor :
  forall (pid v : number) (s : Cart.State) (w : World),
    let '(_, s', w') := Cart.setQty JSON_stringify pid v s w in
    Cart.items s'
    = (fun x => if num_eq (product_id x) pid
                then {| product_id := product_id x; qty := clamped_floor v |}
                else x) <$> Cart.items s
    /\ storage w'
       = <[js "cart" := JSON_stringify (VArray (Cart.item_value <$> Cart.items s'))]>
           (storage w)
    /\ (forall x, x ∈ Cart.items s' -> num_eq (product_id x) pid = true ->
                  qty x = clamped_floor v)
    /\ num_le (num 1) (clamped_floor v) = true
    /\ clamped_floor (num 0) = num 1
    /\ clamped_floor NaN = num 1
    /\ (forall x : Q, (x <= 0)%Q -> clamped_floor (Fin x) = num 1)
    /\ (Forall (fun x => num_le (num 1) (qty x) = true) (Cart.items s) ->
        Forall (fun x => num_le (num 1) (qty x) = true) (Cart.items s')).
Proof.
  intros pid v s w.
  unfold Cart.setQty, Cart.writeCart, Cart.setItems, localStorage_setItem,
    bind, getState, setState.
  cbn [Cart.items storage log]. rewrite setQty_quantity.
  split_and!; try done.
  - intros x (y & -> & _)%list_elem_of_fmap.
    destruct (num_eq (product_id y) pid) eqn:Hy; cbn [product_id qty];
      [done | by rewrite Hy].
  - apply clamped_floor_ge_1.
  - apply clamped_floor_nonpositive.
  - intros Hall. rewrite Forall_fmap. eapply Forall_impl; [exact Hall|].
    intros x Hx. cbn. destruct (num_eq (product_id x) pid); [|done].
    apply clamped_floor_ge_1.
Qed.
End CartQuantity.

Section CartStorage.
Variable NumberToString : number -> jsstring.
Variable StringToNumber : jsstring -> number.
Variable JSON_parse : jsstring -> option value.

Lemma keep_inv (x : CartItem) :
  Cart.keep x = true ->
  exists p q : Q, product_id x = Fin p /\ qty x = Fin q /\ (0 < q)%Q.
Proof.
  unfold Cart.keep. destruct x as [[| | |p] [| | |q]]; cbn -[Qle_bool]; try done.
  rewrite negb_true_iff. intros Hq. exists p, q. split_and!; try done.
  apply Qnot_le_lt. intros Hle. apply Qle_bool_iff in Hle.
  change (inject_Z 0) with 0%Q in Hq. congruence.
Qed.

Lemma parseCart_wellformed (raw : option jsstring) :
  Forall (fun x => exists p q : Q, product_id x = Fin p /\ qty x = Fin q /\ (0 < q)%Q)
         (Cart.parseCart NumberToString StringToNumber JSON_parse raw).
Proof.
  unfold Cart.parseCart.
  destruct raw as [[|c raw]|]; try constructor.
  destruct (JSON_parse (c :: raw)) as [[| | | | |xs|]|]; try constructor.
  destruct (mapM _ xs) as [mapped|]; try constructor.
  apply List.Forall_forall. intros x [_ Hx]%filter_In. by apply keep_inv.
Qed.

(** C9: whatever the storage holds under [cart], [readCart] returns a
    list (no exception leaves it) whose items all have a finite
    [product_id] and a finite [qty] greater than 0. A missing or empty
    entry, a text that does not parse, a parsed value that is not an
    array and a conversion that throws all give the empty list. Reading
    changes neither the page nor the storage. *)
Theorem readCart_total_and_wellformed :
  forall (S : Type) (s : S) (w : World),
    let '(l, s', w') :=
      Cart.readCart NumberToString StringToNumber JSON_parse s w in
    Forall (fun x => exists p q : Q,
              product_id x = Fin p /\ qty x = Fin q /\ (0 < q)%Q) l
    /\ Forall (fun x => Cart.keep x = true) l
    /\ s' = s /\ storage w' = storage w
    /\ (storage w !! js "cart" = None -> l = [])
    /\ (storage w !! js "cart" = Some [] -> l = [])
    /\ (forall raw, storage w !! js "cart" = Some raw ->
                    JSON_parse raw = None -> l = [])
    /\ (forall raw v, storage w !! js "cart" = Some raw ->
                      JSON_parse raw = Some v ->
                      (forall xs, v <> VArray xs) -> l = [])
    /\ (forall raw xs, storage w !! js "cart" = Some raw ->
                       JSON_parse raw = Some (VArray xs) ->
                       mapM (Cart.toItem NumberToString StringToNumber) xs = None ->
                       l = []).
Proof.
  intros S s w.
  unfold Cart.readCart, bind, ret, localStorage_getItem. cbn [storage log].
  split_and!; try done.
  - apply parseCart_wellformed.
  - unfold Cart.parseCart.
    destruct (storage w !! js "cart") as [[|c raw]|]; try constructor.
    destruct (JSON_parse (c :: raw)) as [[| | | | |xs|]|]; try constructor.
    destruct (mapM _ xs) as [mapped|]; try constructor.
    apply List.Forall_forall. by intros x [_ Hx]%filter_In.
  - by intros ->.
  - by intros ->.
  - intros raw -> Hp. unfold Cart.parseCart. destruct raw; [done|]. by rewrite Hp.
  - intros raw v -> Hp Hv. unfold Cart.parseCart. destruct raw; [done|].
    rewrite Hp. destruct v; try done. by destruct (Hv xs).
  - intros raw xs -> Hp Hm. unfold Cart.parseCart. destruct raw; [done|].
    by rewrite Hp, Hm.
Qed.
End CartStorage.

(** ** Handlers and the trace *)

(** Unfold the handler monad down to worlds and traces. *)
Ltac run :=
  unfold toast_error, toast_success, nav, call, localStorage_getItem,
    localStorage_setItem, localStorage_removeItem, emit, getState, setState,
    bind, ret, log in *;
  cbn beta iota zeta delta [storage trace fst snd negb orb andb falsy_str] in *.

Section PaymentPage.
Variable api : Api.

Lemma isValidPhone_not_blank (phone : jsstring) :
  Payment.isValidPhone phone = true -> trim phone <> [].
Proof.
  intros Hv Ht. unfold Payment.isValidPhone, Payment.normalizePhone in Hv.
  rewrite Ht in Hv. discriminate Hv.
Qed.

Lemma sent_nil (t : list event) : requests (drop (length t) t) = [].
Proof. by rewrite drop_all. Qed.

Lemma sent_app (t k : list event) :
  requests (drop (length t) (t ++ k)) = requests k.
Proof. by rewrite drop_app_length. Qed.

(** The requests [handlePay] sends: nothing unless the route has an order
    id, a token is stored, the address is not blank and the phone is
    valid; then the payment, followed by the refresh of the order when
    the payment went through. *)
Lemma handlePay_sent (orderId : option jsstring) (s : Payment.State) (w : World) :
  requests (drop (length (trace w)) (trace (Payment.handlePay api orderId s w).2))
  = match orderId, storage w !! js "token" with
    | Some (c :: id), Some (t :: token) =>
        if bool_decide (trim (Payment.address s) = [])
           || negb (Payment.isValidPhone (Payment.phone s))
        then []
        else
          let post :=
            {| req_api := paymentApi; req_verb := POST;
               req_url := js "/payments/" ++ c :: id;
               req_body :=
                 PayBody {| shipping_address := trim (Payment.address s);
                            phone_number :=
                              Payment.normalizePhone (Payment.phone s) |};
               req_authorization := Some (js "Bearer " ++ t :: token) |} in
          post ::
          match post_payment api (trace w ++ [EvGetItem (js "token")]) post with
          | Resolved _ =>
              [{| req_api := orderApi; req_verb := GET;
                  req_url := js "/orders/" ++ c :: id; req_body := NoBody;
                  req_authorization := Some (js "Bearer " ++ t :: token) |}]
          | Rejected _ => []
          end
    | _, _ => []
    end.
Proof.
  unfold Payment.handlePay, Payment.loadOrder, Payment.validateForm,
    Payment.getTokenOrRedirect, Payment.handleAuthError, Payment.setPaying,
    Payment.setOrder.
  destruct orderId as [[|c id]|]; [apply sent_nil| |apply sent_nil].
  run.
  destruct (storage w !! js "token") as [[|t token]|] eqn:Htok;
    cbn [falsy_str]; run;
    [by rewrite <- !app_assoc, sent_app | | by rewrite <- !app_assoc, sent_app].
  case_bool_decide as Ha; run; [by rewrite <- !app_assoc, sent_app|].
  case_bool_decide as Hp; run.
  { destruct (Payment.isValidPhone (Payment.phone s)) eqn:Hv;
      [by destruct (isValidPhone_not_blank _ Hv)|].
    by rewrite <- !app_assoc, sent_app. }
  destruct (Payment.isValidPhone (Payment.phone s)) eqn:Hv; cbn [negb orb]; run;
    [|by rewrite <- !app_assoc, sent_app].
  cbn [Payment.address Payment.phone].
  destruct (post_payment api _ _) as [data|e]; run.
  - rewrite Htok. cbn [falsy_str]. run.
    destruct (get_order api _ _) as [o|e]; run;
      [|destruct (is_number _ 401 || is_number _ 403); run];
      by rewrite <- !app_assoc, sent_app.
  - destruct (is_number _ 401 || is_number _ 403); run;
      by rewrite <- !app_assoc, sent_app.
Qed.

(** C7: every POST that [handlePay] sends goes to [/payments/{orderId}]
    and carries exactly the trimmed address and the normalised phone; the
    address is then not empty and the normalised phone is valid. With a
    blank address or an invalid phone nothing is sent at all. With an
    order id, a token, an address and a valid phone the payment is the
    first request, and the only POST. *)
Theorem handlePay_posts_validated_payload :
  forall (orderId : option jsstring) (s : Payment.State) (w : World),
    let sent :=
      requests (drop (length (trace w))
                     (trace (Payment.handlePay api orderId s w).2)) in
    let payload :=
      {| shipping_address := trim (Payment.address s);
         phone_number := Payment.normalizePhone (Payment.phone s) |} in
    let post (id token : jsstring) :=
      {| req_api := paymentApi; req_verb := POST;
         req_url := js "/payments/" ++ id; req_body := PayBody payload;
         req_authorization := Some (js "Bearer " ++ token) |} in
    (forall r, r ∈ sent -> req_verb r = POST ->
       (exists id token,
          orderId = Some id /\ storage w !! js "token" = Some token
          /\ r = post id token)
       /\ shipping_address payload <> []
       /\ Payment.isValidPhone (phone_number payload) = true)
    /\ (trim (Payment.address s) = []
        \/ Payment.isValidPhone (Payment.phone s) = false -> sent = [])
    /\ (forall id token,
          orderId = Some id -> id <> [] ->
          storage w !! js "token" = Some token -> token <> [] ->
          trim (Payment.address s) <> [] ->
          Payment.isValidPhone (Payment.phone s) = true ->
          exists rest, sent = post id token :: rest
                       /\ Forall (fun r => req_verb r = GET) rest).
Proof.
  intros orderId s w sent payload post. subst sent.
  rewrite handlePay_sent.
  destruct orderId as [[|c id]|];
    try (split_and!; [by intros r ?%elem_of_nil | done | intros; simplify_eq]).
  destruct (storage w !! js "token") as [[|t token]|] eqn:Htok;
    try (split_and!; [by intros r ?%elem_of_nil | done | intros; simplify_eq]).
  case_bool_decide as Ha; cbn [orb].
  { split_and!; [by intros r ?%elem_of_nil | done | intros; simplify_eq]. }
  destruct (Payment.isValidPhone (Payment.phone s)) eqn:Hv; cbn [negb].
  2: { split_and!; [by intros r ?%elem_of_nil | done | intros; simplify_eq]. }
  split_and!.
  - intros r Hr Hpost.
    assert (r = post (c :: id) (t :: token)) as ->.
    { apply elem_of_cons in Hr as [->|Hr]; [done|].
      destruct (post_payment api _ _); members Hr; by subst r. }
    split_and!; [by exists (c :: id), (t :: token) | done |].
    cbn [phone_number payload].
    by rewrite isValidPhone_normalized.
  - by intros [?|?].
  - intros id' token' ? _ ? _ _ _. simplify_eq. eexists. split; [done|].
    destruct (post_payment api _ _); by repeat constructor.
Qed.
End PaymentPage.

Section Checkout.
Variable NumberToString : number -> jsstring.
Variable api : Api.

Lemma copy_items (l : list CartItem) :
  (fun i => {| product_id := product_id i; qty := qty i |}) <$> l = l.
Proof. induction l as [|[] l IH]; [done|]. cbn. by rewrite IH. Qed.

Lemma nothing_missing (s : Cart.State) :
  Forall (fun it => is_Some (Cart.productsById s !! NumberToString (product_id it)))
         (Cart.items s) ->
  List.filter (fun x => negb (bool_decide (is_Some (Cart.product x))))
              (Cart.enriched NumberToString s) = [].
Proof.
  unfold Cart.enriched. induction 1 as [|it l Hit _ IH]; [done|].
  cbn. rewrite bool_decide_true by done. exact IH.
Qed.

(** C5: with an empty item list [checkout] only shows the notification
    "Cart is empty": the page and the storage are unchanged, the token is
    not read and no request is sent, so no order is created. *)
Theorem checkout_empty_cart_rejected :
  forall (s : Cart.State) (w : World),
    Cart.items s = [] ->
    let '(_, s', w') := Cart.checkout NumberToString api s w in
    s' = s
    /\ storage w' = storage w
    /\ trace w' = trace w ++ [EvToastError (VString (js "Cart is empty"))]
    /\ reads (trace w') = reads (trace w)
    /\ requests (trace w') = requests (trace w).
Proof.
  intros s w Hitems. unfold Cart.checkout. run. rewrite Hitems. run.
  unfold reads, requests. rewrite !omap_app. cbn. by rewrite !app_nil_r.
Qed.

(** C8: when [checkout] reaches the POST to [/orders] (items in the cart,
    a token stored, every product known) that call is its only request.
    If it succeeds, the [cart] entry is removed from the storage and the
    item list is empty; if it fails, the storage and the item list are
    what they were. *)
Theorem checkout_clears_cart_only_on_success :
  forall (s : Cart.State) (w : World) (token : jsstring),
    Cart.items s <> [] ->
    storage w !! js "token" = Some token -> token <> [] ->
    Forall (fun it => is_Some (Cart.productsById s !! NumberToString (product_id it)))
           (Cart.items s) ->
    let req :=
      {| req_api := orderApi; req_verb := POST; req_url := js "/orders";
         req_body := OrderBody (Cart.items s); req_authorization := None |} in
    let '(_, s', w') := Cart.checkout NumberToString api s w in
    requests (drop (length (trace w)) (trace w')) = [req]
    /\ match post_order api (trace w ++ [EvGetItem (js "token")]) req with
       | Resolved _ =>
           storage w' = delete (js "cart") (storage w)
           /\ storage w' !! js "cart" = None
           /\ Cart.items s' = []
       | Rejected _ =>
           storage w' = storage w /\ Cart.items s' = Cart.items s
       end.
Proof.
  intros s w token Hitems Htok Hne Hall req. subst req.
  unfold Cart.checkout, Cart.setCheckingOut, Cart.setItems. run.
  destruct (Cart.items s) as [|it l] eqn:Hl; [done|]. run.
  rewrite Htok. destruct token as [|t token]; [done|]. run.
  rewrite <- Hl, (nothing_missing s) by (by rewrite Hl). run.
  rewrite copy_items.
  destruct (post_order api _ _) as [data|e]; run.
  - destruct (ToString _ _); run;
      (split; [by rewrite <- !app_assoc, sent_app|]);
      split_and!; try done; apply lookup_delete_eq.
  - split; [by rewrite <- !app_assoc, sent_app|]. done.
Qed.
End Checkout.

(** ** Rejected calls *)

Section Rejections.
Variable api : Api.

(** The two pages of the payment flow branch on the status.

    X10: a rejected [loadOrder]. On 401 or 403 the session is declared
    expired, the token is removed and the page goes to [/login], the order
    of the page staying; on any other failure the detail of the answer, or
    "Failed to load order", is notified, the order is emptied and the
    storage is untouched. Nothing is returned in either case. *)
Lemma Payment_loadOrder_rejected (id : jsstring) (s : Payment.State)
    (w : World) (t : N) (token : jsstring) (e : HttpError) :
  storage w !! js "token" = Some (t :: token) ->
  let req := {| req_api := orderApi; req_verb := GET;
                req_url := js "/orders/" ++ id; req_body := NoBody;
                req_authorization := Some (js "Bearer " ++ t :: token) |} in
  get_order api (trace w ++ [EvGetItem (js "token")]) req = Rejected e ->
  Payment.loadOrder api id s w
  = if is_number (err_status e) 401 || is_number (err_status e) 403
    then (None, s,
          {| storage := delete (js "token") (storage w);
             trace := trace w ++
               [EvGetItem (js "token"); EvRequest req;
                EvToastError (VString (js "Session expired. Please login again."));
                EvRemoveItem (js "token"); EvNav (js "/login") false] |})
    else (None,
          {| Payment.order := None; Payment.loading := Payment.loading s;
             Payment.paying := Payment.paying s;
             Payment.address := Payment.address s;
             Payment.phone := Payment.phone s |},
          {| storage := storage w;
             trace := trace w ++
               [EvGetItem (js "token"); EvRequest req;
                EvToastError (or_else (err_detail e)
                                      (VString (js "Failed to load order")))] |}).
Proof.
  intros Htok req Hrej. subst req.
  unfold Payment.loadOrder, Payment.getTokenOrRedirect,
    Payment.handleAuthError, Payment.setOrder. run.
  rewrite Htok. run. rewrite Hrej.
  destruct (is_number _ 401 || is_number _ 403); run;
    by rewrite <- !app_assoc.
Qed.

(** X16: a rejected [Payments.load]. On 401 or 403 the token is removed
    and the page goes to [/login]; on any other failure the detail of the
    answer, or "Failed to load payments", is notified and the storage is
    untouched. In both cases [loading] ends false and the history is
    kept. *)
Lemma Payments_load_rejected (s : Payments.State) (w : World) (t : N)
    (token : jsstring) (e : HttpError) :
  storage w !! js "token" = Some (t :: token) ->
  let req := {| req_api := paymentApi; req_verb := GET;
                req_url := js "/payments"; req_body := NoBody;
                req_authorization := Some (js "Bearer " ++ t :: token) |} in
  get_payments api (trace w ++ [EvGetItem (js "token")]) req = Rejected e ->
  Payments.load api s w
  = (tt, {| Payments.loading := false; Payments.payments := Payments.payments s |},
     if is_number (err_status e) 401 || is_number (err_status e) 403
     then {| storage := delete (js "token") (storage w);
             trace := trace w ++
               [EvGetItem (js "token"); EvRequest req;
                EvToastError (VString (js "Session expired. Please login again."));
                EvRemoveItem (js "token"); EvNav (js "/login") false] |}
     else {| storage := storage w;
             trace := trace w ++
               [EvGetItem (js "token"); EvRequest req;
                EvToastError (or_else (err_detail e)
                                      (VString (js "Failed to load payments")))] |}).
Proof.
  intros Htok req Hrej. subst req.
  unfold Payments.load, Payments.handleAuthError, Payments.setLoading,
    Payments.setPayments. run.
  rewrite Htok. run. rewrite Hrej.
  destruct (is_number _ 401 || is_number _ 403); run;
    by rewrite <- !app_assoc.
Qed.

(** X12: the order-details page has one answer to every rejection,
    whatever its status: the detail of the answer, or "Failed to load
    order", is notified, the order is emptied and [loading] ends false.
    The token stays and no route is entered. *)
Lemma OrderDetails_load_rejected (c : N) (id : jsstring)
    (s : OrderDetails.State) (w : World) (t : N) (token : jsstring)
    (e : HttpError) :
  storage w !! js "token" = Some (t :: token) ->
  let req := {| req_api := orderApi; req_verb := GET;
                req_url := js "/orders/" ++ c :: id; req_body := NoBody;
                req_authorization := None |} in
  get_order api (trace w ++ [EvGetItem (js "token")]) req = Rejected e ->
  OrderDetails.load api (Some (c :: id)) s w
  = (tt, {| OrderDetails.loading := false; OrderDetails.order := None |},
     {| storage := storage w;
        trace := trace w ++
          [EvGetItem (js "token"); EvRequest req;
           EvToastError (or_else (err_detail e)
                                 (VString (js "Failed to load order")))] |}).
Proof.
  intros Htok req Hrej. subst req.
  unfold OrderDetails.load, OrderDetails.setLoading, OrderDetails.setOrder. run.
  rewrite Htok. run. rewrite Hrej. run. by rewrite <- !app_assoc.
Qed.

(** X11: a rejected payment. On 401 or 403 the token is removed and the
    page goes to [/login]; on any other failure the detail of the answer,
    or "Payment failed", is notified and the storage is untouched. In
    both cases nothing is returned, [paying] ends false and nothing else
    of the page changes. *)
Lemma handlePay_rejected (c : N) (id : jsstring) (s : Payment.State)
    (w : World) (t : N) (token : jsstring) (e : HttpError) :
  storage w !! js "token" = Some (t :: token) ->
  trim (Payment.address s) <> [] ->
  Payment.isValidPhone (Payment.phone s) = true ->
  let req := {| req_api := paymentApi; req_verb := POST;
                req_url := js "/payments/" ++ c :: id;
                req_body :=
                  PayBody {| shipping_address := trim (Payment.address s);
                             phone_number := Payment.normalizePhone (Payment.phone s) |};
                req_authorization := Some (js "Bearer " ++ t :: token) |} in
  post_payment api (trace w ++ [EvGetItem (js "token")]) req = Rejected e ->
  Payment.handlePay api (Some (c :: id)) s w
  = (None,
     {| Payment.order := Payment.order s; Payment.loading := Payment.loading s;
        Payment.paying := false; Payment.address := Payment.address s;
        Payment.phone := Payment.phone s |},
     if is_number (err_status e) 401 || is_number (err_status e) 403
     then {| storage := delete (js "token") (storage w);
             trace := trace w ++
               [EvGetItem (js "token"); EvRequest req;
                EvToastError (VString (js "Session expired. Please login again."));
                EvRemoveItem (js "token"); EvNav (js "/login") false] |}
     else {| storage := storage w;
             trace := trace w ++
               [EvGetItem (js "token"); EvRequest req;
                EvToastError (or_else (err_detail e)
                                      (VString (js "Payment failed")))] |}).
Proof.
  intros Htok Ha Hv req Hrej. subst req.
  unfold Payment.handlePay, Payment.validateForm, Payment.getTokenOrRedirect,
    Payment.handleAuthError, Payment.setPaying. run.
  rewrite Htok. run.
  rewrite bool_decide_false by done.
  rewrite bool_decide_false by by apply isValidPhone_not_blank.
  rewrite Hv. run. cbn [Payment.address Payment.phone]. rewrite Hrej.
  destruct (is_number _ 401 || is_number _ 403); run;
    by rewrite <- !app_assoc.
Qed.

(** The cart page, like the order-details page, has no status branch:
    the catalogue fetch and the checkout answer every rejection with the
    notification alone.

    X22: a rejected catalogue. [run] notifies the detail of the answer, or
    "Failed to load products", and ends with [loading] false; the items,
    the index of products and the storage are untouched. *)
Lemma Cart_run_rejected (nts : number -> jsstring) (s : Cart.State)
    (w : World) (e : HttpError) :
  let req := {| req_api := productApi; req_verb := GET;
                req_url := js "/products"; req_body := NoBody;
                req_authorization := None |} in
  get_products api (trace w) req = Rejected e ->
  Cart.run nts api s w
  = (tt,
     {| Cart.items := Cart.items s; Cart.productsById := Cart.productsById s;
        Cart.loading := false; Cart.checkingOut := Cart.checkingOut s |},
     {| storage := storage w;
        trace := trace w ++
          [EvRequest req;
           EvToastError (or_else (err_detail e)
                                 (VString (js "Failed to load products")))] |}).
Proof.
  intros req Hrej. subst req.
  unfold Cart.run, Cart.setLoading, Cart.setProductsById. run.
  rewrite Hrej. run. by rewrite <- !app_assoc.
Qed.

(** X21: a rejected order. [checkout] notifies the detail of the answer,
    or "Checkout failed", and ends with [checkingOut] false; the items and
    the storage, the cart and the token included, are untouched, whatever
    the status. *)
Lemma Cart_checkout_rejected (nts : number -> jsstring) (s : Cart.State)
    (w : World) (t : N) (token : jsstring) (e : HttpError) :
  Cart.items s <> [] ->
  storage w !! js "token" = Some (t :: token) ->
  Forall (fun it => is_Some (Cart.productsById s !! nts (product_id it)))
         (Cart.items s) ->
  let req := {| req_api := orderApi; req_verb := POST; req_url := js "/orders";
                req_body := OrderBody (Cart.items s);
                req_authorization := None |} in
  post_order api (trace w ++ [EvGetItem (js "token")]) req = Rejected e ->
  Cart.checkout nts api s w
  = (tt,
     {| Cart.items := Cart.items s; Cart.productsById := Cart.productsById s;
        Cart.loading := Cart.loading s; Cart.checkingOut := false |},
     {| storage := storage w;
        trace := trace w ++
          [EvGetItem (js "token"); EvRequest req;
           EvToastError (or_else (err_detail e)
                                 (VString (js "Checkout failed")))] |}).
Proof.
  intros Hitems Htok Hall req Hrej. subst req.
  unfold Cart.checkout, Cart.setCheckingOut, Cart.setItems. run.
  destruct (Cart.items s) as [|it l] eqn:Hl; [done|]. run.
  rewrite Htok. run.
  rewrite <- Hl in Hrej |- *.
  rewrite (nothing_missing nts s) by (by rewrite Hl). run.
  rewrite copy_items, Hrej. run. by rewrite <- !app_assoc.
Qed.

(** C3, at a rejected GET [/orders/7] with status 401 and a token in the
    storage: the order-details page only shows "Failed to load order",
    keeps the token and enters no route, while the payment page, on the
    same answer to the same call, removes the token and goes to
    [/login]. *)
Theorem OrderDetails_load_keeps_token_on_401 :
  let w := Sample.loggedIn in
  let get (auth : option jsstring) :=
    {| req_api := orderApi; req_verb := GET; req_url := js "/orders/7";
       req_body := NoBody; req_authorization := auth |} in
  OrderDetails.load (Sample.rejecting 401) (Some (js "7"))
    {| OrderDetails.loading := true; OrderDetails.order := None |} w
  = (tt, {| OrderDetails.loading := false; OrderDetails.order := None |},
     {| storage := storage w;
        trace := [EvGetItem (js "token"); EvRequest (get None);
                  EvToastError (VString (js "Failed to load order"))] |})
  /\ storage w !! js "token" = Some (js "t0k3n")
  /\ Payment.loadOrder (Sample.rejecting 401) (js "7") Sample.paymentForm w
     = (None, Sample.paymentForm,
        {| storage := delete (js "token") (storage w);
           trace := [EvGetItem (js "token");
                     EvRequest (get (Some (js "Bearer t0k3n")));
                     EvToastError (VString (js "Session expired. Please login again."));
                     EvRemoveItem (js "token"); EvNav (js "/login") false] |}).
Proof. split_and!; reflexivity. Qed.
End Rejections.

(** ** The theorems at work on the sample pages *)

Section Instances.
Import Sample.

Lemma payment_actions_iff_created_witness :
  (OrderDetails.loading orderPage = false
   /\ OrderDetails.order orderPage = Some order7
   /\ Payment.loading paymentForm = false
   /\ Payment.order paymentForm = Some order7
   /\ Payment.no_orderId (Some (js "7")) = false)
  /\ LinkButton (js "/payment/7") (js "Go to Payment")
       ∈ OrderDetails.render showNumber orderPage
  /\ Button (js "Pay Now") false DoHandlePay
       ∈ Payment.render (Some (js "7")) paymentForm.
Proof.
  split; [by split_and!|].
  destruct (payment_actions_iff_created showNumber (Some (js "7")) orderPage
              paymentForm order7 eq_refl eq_refl eq_refl eq_refl eq_refl)
    as (_ & _ & Hpay & Hlink).
  split; [by apply Hlink | by apply Hpay].
Defined.

Lemma checkout_empty_cart_rejected_witness :
  Cart.items emptyCart = []
  /\ let '(_, s', w') := Cart.checkout showNumber accepting emptyCart loggedIn in
     s' = emptyCart
     /\ storage w' = storage loggedIn
     /\ trace w' = trace loggedIn ++ [EvToastError (VString (js "Cart is empty"))]
     /\ reads (trace w') = reads (trace loggedIn)
     /\ requests (trace w') = requests (trace loggedIn).
Proof.
  split; [reflexivity|].
  apply (checkout_empty_cart_rejected showNumber accepting emptyCart loggedIn).
  reflexivity.
Defined.

Lemma setQty_stores_clamped_floor_witness :
  Forall (fun x => num_le (num 1) (qty x) = true) (Cart.items cartPage)
  /\ let '(_, s', _) := Cart.setQty stringify (num 1) (num 0) cartPage loggedIn in
     Forall (fun x => num_le (num 1) (qty x) = true) (Cart.items s')
     /\ forall x, x ∈ Cart.items s' -> num_eq (product_id x) (num 1) = true ->
                  qty x = num 1.
Proof.
  assert (Hinv : Forall (fun x => num_le (num 1) (qty x) = true)
                        (Cart.items cartPage))
    by (repeat constructor).
  split; [exact Hinv|].
  pose proof (setQty_stores_clamped_floor stringify (num 1) (num 0)
                cartPage loggedIn) as H.
  destruct (Cart.setQty stringify (num 1) (num 0) cartPage loggedIn)
    as [[u s'] w'].
  destruct H as (_ & _ & Hq & _ & _ & _ & _ & Hkeep).
  split; [exact (Hkeep Hinv) | exact Hq].
Defined.

Lemma readCart_total_and_wellformed_witness :
  storage fresh !! js "cart" = None
  /\ (Cart.readCart showNumber readNumber parse paymentForm fresh).1.1 = []
  /\ Forall (fun x => exists p q : Q,
               product_id x = Fin p /\ qty x = Fin q /\ (0 < q)%Q)
            (Cart.readCart showNumber readNumber parse paymentForm loggedIn).1.1.
Proof.
  split; [reflexivity|].
  pose proof (readCart_total_and_wellformed showNumber readNumber parse _
                paymentForm fresh) as Hfresh.
  pose proof (readCart_total_and_wellformed showNumber readNumber parse _
                paymentForm loggedIn) as Hcart.
  destruct (Cart.readCart showNumber readNumber parse paymentForm fresh)
    as [[l1 s1] w1].
  destruct (Cart.readCart showNumber readNumber parse paymentForm loggedIn)
    as [[l2 s2] w2].
  destruct Hfresh as (_ & _ & _ & _ & Hnone & _).
  destruct Hcart as (Hwf & _).
  split; [exact (Hnone eq_refl) | exact Hwf].
Defined.

Lemma handlePay_posts_validated_payload_witness :
  let sent :=
    requests (trace (Payment.handlePay accepting (Some (js "7"))
                       paymentForm loggedIn).2) in
  exists r rest,
    sent = r :: rest
    /\ req_verb r = POST
    /\ req_url r = js "/payments/7"
    /\ req_body r = PayBody {| shipping_address := js "12 Candy Street";
                               phone_number := js "+84901234567" |}
    /\ Payment.isValidPhone (js "+84901234567") = true.
Proof.
  destruct (handlePay_posts_validated_payload accepting (Some (js "7"))
              paymentForm loggedIn) as (_ & _ & Hready).
  destruct (Hready (js "7") (js "t0k3n") eq_refl ltac:(done) eq_refl
              ltac:(done) ltac:(done) eq_refl) as (rest & Hsent & _).
  eexists _, rest. split; [exact Hsent|].
  by split_and!.
Defined.

Lemma checkout_clears_cart_only_on_success_witness :
  (Cart.items cartPage <> []
   /\ storage loggedIn !! js "token" = Some (js "t0k3n")
   /\ Forall (fun it => is_Some (Cart.productsById cartPage
                                   !! showNumber (product_id it)))
             (Cart.items cartPage))
  /\ (let '(_, s', w') := Cart.checkout showNumber accepting cartPage loggedIn in
      storage w' !! js "cart" = None /\ Cart.items s' = [])
  /\ (let '(_, s', w') := Cart.checkout showNumber (rejecting 500) cartPage loggedIn in
      storage w' = storage loggedIn /\ Cart.items s' = Cart.items cartPage).
Proof.
  assert (Hitems : Cart.items cartPage <> []) by done.
  assert (Htoken : js "t0k3n" <> []) by done.
  assert (Hknown : Forall (fun it => is_Some (Cart.productsById cartPage
                                                !! showNumber (product_id it)))
                          (Cart.items cartPage))
    by (repeat constructor; by eexists).
  split; [by split_and!|].
  pose proof (checkout_clears_cart_only_on_success showNumber accepting
                cartPage loggedIn (js "t0k3n") Hitems eq_refl Htoken Hknown)
    as Hok.
  pose proof (checkout_clears_cart_only_on_success showNumber (rejecting 500)
                cartPage loggedIn (js "t0k3n") Hitems eq_refl Htoken Hknown)
    as Hfail.
  destruct (Cart.checkout showNumber accepting cartPage loggedIn)
    as [[u1 s1] w1].
  destruct (Cart.checkout showNumber (rejecting 500) cartPage loggedIn)
    as [[u2 s2] w2].
  cbn in Hok, Hfail.
  destruct Hok as (_ & _ & Hgone & Hempty).
  destruct Hfail as (_ & Hsame & Hkept).
  by split_and!.
Defined.
End Instances.

(** * Further properties of the pages *)

(** ** The payment page *)

Section PaymentForm.
Variable api : Api.

(** X1: [validateForm] accepts exactly a non-blank address together with
    a valid phone. It changes neither the page nor the storage, shows no
    notification when it accepts and exactly one error when it refuses; a
    blank address is reported first, whatever the phone. *)
Theorem validateForm_accepts_iff :
  forall (s : Payment.State) (w : World),
    let '(ok, s', w') := Payment.validateForm s w in
    ok = negb (bool_decide (trim (Payment.address s) = []))
         && Payment.isValidPhone (Payment.phone s)
    /\ s' = s /\ storage w' = storage w
    /\ (if ok then trace w' = trace w
        else exists msg, trace w' = trace w ++ [EvToastError (VString msg)])
    /\ (trim (Payment.address s) = [] ->
        trace w'
        = trace w ++ [EvToastError (VString (js "Please enter your shipping address"))]).
Proof.
  intros s w. unfold Payment.validateForm. run.
  case_bool_decide as Ha; run; [split_and!; eauto|].
  case_bool_decide as Hp; run.
  { destruct (Payment.isValidPhone (Payment.phone s)) eqn:Hv;
      [by destruct (isValidPhone_not_blank _ Hv)|].
    split_and!; eauto; done. }
  destruct (Payment.isValidPhone (Payment.phone s)); run;
    split_and!; eauto; done.
Qed.

(** X2: without a stored token, or with an empty one, neither [loadOrder]
    nor [handlePay] sends anything: the user is told to log in and is sent
    to [/login]; the page and the storage are unchanged. *)
Theorem Payment_handlers_need_token :
  forall (orderId : option jsstring) (id : jsstring) (s : Payment.State)
         (w : World),
    falsy_str (storage w !! js "token") = true ->
    let w' :=
      {| storage := storage w;
         trace := trace w ++
           [EvGetItem (js "token");
            EvToastError (VString (js "Please login first"));
            EvNav (js "/login") false] |} in
    Payment.loadOrder api id s w = (None, s, w')
    /\ (Payment.no_orderId orderId = false ->
        Payment.handlePay api orderId s w = (None, s, w')).
Proof.
  intros orderId id s w Htok w'. subst w'.
  unfold Payment.handlePay, Payment.loadOrder, Payment.getTokenOrRedirect. run.
  rewrite Htok. run. rewrite <- !app_assoc. split; [done|].
  destruct orderId as [[|c oid]|]; try done. intros _. run.
  rewrite Htok. run. by rewrite <- !app_assoc.
Qed.

(** X3: with a token and an accepted call, [loadOrder] sends one GET to
    [/orders/{id}] under the bearer token, stores the order in the page
    and returns it; the storage is unchanged. *)
Theorem Payment_loadOrder_resolved :
  forall (id : jsstring) (s : Payment.State) (w : World) (t : N)
         (token : jsstring) (o : Order),
    storage w !! js "token" = Some (t :: token) ->
    let req := {| req_api := orderApi; req_verb := GET;
                  req_url := js "/orders/" ++ id; req_body := NoBody;
                  req_authorization := Some (js "Bearer " ++ t :: token) |} in
    get_order api (trace w ++ [EvGetItem (js "token")]) req = Resolved o ->
    Payment.loadOrder api id s w
    = (Some o,
       {| Payment.order := Some o; Payment.loading := Payment.loading s;
          Payment.paying := Payment.paying s;
          Payment.address := Payment.address s;
          Payment.phone := Payment.phone s |},
       {| storage := storage w;
          trace := trace w ++ [EvGetItem (js "token"); EvRequest req] |}).
Proof.
  intros id s w t token o Htok req Hres. subst req.
  unfold Payment.loadOrder, Payment.getTokenOrRedirect, Payment.setOrder. run.
  rewrite Htok. run. rewrite Hres. run. by rewrite <- !app_assoc.
Qed.

(** X4: an accepted payment. [handlePay] announces the success, refreshes
    the order, goes to [/payments] replacing the current entry and returns
    the answer, with [paying] back to false. The refresh decides the rest:
    its order is stored; its 401 or 403 removes the token and enters
    [/login] before [/payments]; any other failure is notified and empties
    the order. *)
Theorem handlePay_resolved :
  forall (c : N) (id : jsstring) (s : Payment.State) (w : World) (t : N)
         (token : jsstring) (data : PayResult),
    storage w !! js "token" = Some (t :: token) ->
    trim (Payment.address s) <> [] ->
    Payment.isValidPhone (Payment.phone s) = true ->
    let post :=
      {| req_api := paymentApi; req_verb := POST;
         req_url := js "/payments/" ++ c :: id;
         req_body :=
           PayBody {| shipping_address := trim (Payment.address s);
                      phone_number := Payment.normalizePhone (Payment.phone s) |};
         req_authorization := Some (js "Bearer " ++ t :: token) |} in
    let get :=
      {| req_api := orderApi; req_verb := GET;
         req_url := js "/orders/" ++ c :: id; req_body := NoBody;
         req_authorization := Some (js "Bearer " ++ t :: token) |} in
    let before :=
      trace w ++
      [EvGetItem (js "token"); EvRequest post;
       EvToastSuccess (VString (js "Payment successful " ++ [55356%N; 57225%N]));
       EvGetItem (js "token")] in
    let page (o : option Order) :=
      {| Payment.order := o; Payment.loading := Payment.loading s;
         Payment.paying := false; Payment.address := Payment.address s;
         Payment.phone := Payment.phone s |} in
    post_payment api (trace w ++ [EvGetItem (js "token")]) post = Resolved data ->
    Payment.handlePay api (Some (c :: id)) s w
    = match get_order api before get with
      | Resolved o =>
          (Some data, page (Some o),
           {| storage := storage w;
              trace := before ++ [EvRequest get; EvNav (js "/payments") true] |})
      | Rejected e =>
          if is_number (err_status e) 401 || is_number (err_status e) 403
          then (Some data, page (Payment.order s),
                {| storage := delete (js "token") (storage w);
                   trace := before ++
                     [EvRequest get;
                      EvToastError (VString (js "Session expired. Please login again."));
                      EvRemoveItem (js "token"); EvNav (js "/login") false;
                      EvNav (js "/payments") true] |})
          else (Some data, page None,
                {| storage := storage w;
                   trace := before ++
                     [EvRequest get;
                      EvToastError (or_else (err_detail e)
                                            (VString (js "Failed to load order")));
                      EvNav (js "/payments") true] |})
      end.
Proof.
  intros c id s w t token data Htok Ha Hv post get before page Hres.
  subst post get before page.
  unfold Payment.handlePay, Payment.loadOrder, Payment.validateForm,
    Payment.getTokenOrRedirect, Payment.handleAuthError, Payment.setPaying,
    Payment.setOrder. run.
  rewrite Htok. run.
  rewrite bool_decide_false by done.
  rewrite bool_decide_false by by apply isValidPhone_not_blank.
  rewrite Hv. run. cbn [Payment.address Payment.phone]. rewrite Hres. run.
  rewrite Htok. run. rewrite <- !app_assoc. cbn [app].
  destruct (get_order api _ _) as [o|e]; run;
    [|destruct (is_number _ 401 || is_number _ 403); run];
    cbn [Payment.order Payment.loading Payment.paying Payment.address Payment.phone];
    by rewrite <- !app_assoc.
Qed.
End PaymentForm.

Section PaymentFrame.
Variable api : Api.

Lemma draft_keys_not_token :
  Payment.ADDRESS_KEY <> js "token" /\ Payment.PHONE_KEY <> js "token"
  /\ Payment.ADDRESS_KEY <> Payment.PHONE_KEY.
Proof. by split_and!. Qed.

(** X5: whatever happens, [handlePay] leaves the address, the phone and
    the loading flag of the page alone, and the only change it can make to
    the storage is to remove the token: the saved draft of the form
    survives. *)
Theorem handlePay_keeps_draft :
  forall (orderId : option jsstring) (s : Payment.State) (w : World),
    let '(_, s', w') := Payment.handlePay api orderId s w in
    Payment.address s' = Payment.address s
    /\ Payment.phone s' = Payment.phone s
    /\ Payment.loading s' = Payment.loading s
    /\ (storage w' = storage w \/ storage w' = delete (js "token") (storage w))
    /\ storage w' !! Payment.ADDRESS_KEY = storage w !! Payment.ADDRESS_KEY
    /\ storage w' !! Payment.PHONE_KEY = storage w !! Payment.PHONE_KEY.
Proof.
  intros orderId s w.
  destruct draft_keys_not_token as (Hak & Hpk & _).
  unfold Payment.handlePay, Payment.loadOrder, Payment.validateForm,
    Payment.getTokenOrRedirect, Payment.handleAuthError, Payment.setPaying,
    Payment.setOrder.
  destruct orderId as [[|c id]|]; run; try (split_and!; by eauto).
  destruct (storage w !! js "token") as [[|t token]|] eqn:Htok; run;
    try (split_and!; by eauto).
  case_bool_decide as Ha; run; [split_and!; by eauto|].
  case_bool_decide as Hp; run; [split_and!; by eauto|].
  destruct (Payment.isValidPhone (Payment.phone s)); run;
    [|split_and!; by eauto].
  cbn [Payment.address Payment.phone].
  destruct (post_payment api _ _) as [data|e]; run.
  - rewrite Htok. run.
    destruct (get_order api _ _) as [o|e]; run;
      [|destruct (is_number _ 401 || is_number _ 403); run];
      split_and!; eauto; by rewrite lookup_delete_ne.
  - destruct (is_number _ 401 || is_number _ 403); run;
      split_and!; eauto; by rewrite lookup_delete_ne.
Qed.

(** X6: what [handlePay] sends depends on the route, the token and the
    form only. The order held by the page, its status included, and the
    flags [loading] and [paying] play no part: the guard on CREATED lives
    in the view alone. *)
Theorem handlePay_ignores_order_state :
  forall (orderId : option jsstring) (s : Payment.State) (w : World)
         (o : option Order) (ld pay : bool),
    let s2 := {| Payment.order := o; Payment.loading := ld;
                 Payment.paying := pay; Payment.address := Payment.address s;
                 Payment.phone := Payment.phone s |} in
    requests (drop (length (trace w))
                   (trace (Payment.handlePay api orderId s2 w).2))
    = requests (drop (length (trace w))
                     (trace (Payment.handlePay api orderId s w).2)).
Proof. intros orderId s w o ld pay s2. by rewrite !handlePay_sent. Qed.

(** X7: the effect that loads the order always ends with [loading]
    false, whatever the storage holds and the service answers; it sends at
    most one request, and without an order id in the route it sends none,
    does nothing to the world and empties the order. *)
Theorem onOrderId_ends_loading :
  forall (orderId : option jsstring) (s : Payment.State) (w : World),
    let '(_, s', w') := Payment.onOrderId api orderId s w in
    Payment.loading s' = false
    /\ Payment.address s' = Payment.address s
    /\ Payment.phone s' = Payment.phone s
    /\ Payment.paying s' = Payment.paying s
    /\ length (requests (drop (length (trace w)) (trace w'))) <= 1
    /\ (Payment.no_orderId orderId = true ->
        Payment.order s' = None /\ w' = w).
Proof.
  intros orderId s w.
  unfold Payment.onOrderId, Payment.loadOrder, Payment.getTokenOrRedirect,
    Payment.handleAuthError, Payment.setLoading, Payment.setOrder.
  destruct orderId as [[|c id]|]; run;
    try (rewrite sent_nil; split_and!; cbn; try done; lia).
  destruct (storage w !! js "token") as [[|t token]|] eqn:Htok; run;
    try (rewrite <- !app_assoc, sent_app; split_and!; cbn; try done; lia).
  destruct (get_order api _ _) as [o|e]; run;
    [|destruct (is_number _ 401 || is_number _ 403); run];
    rewrite <- !app_assoc, sent_app; split_and!; cbn; try done; lia.
Qed.

(** X8: the draft survives a reload. What the two persisting effects
    write for a page is what the effect on mount reads back into any
    page, whatever that page held; reading changes nothing in the
    storage. A key that is missing reads as the empty string. *)
Theorem saved_draft_round_trip :
  forall (s s0 : Payment.State) (w : World),
    (let '(_, _, w1) := (Payment.persistAddress ;; Payment.persistPhone) s w in
     let '(_, s2, w2) := Payment.loadSaved s0 w1 in
     Payment.address s2 = Payment.address s
     /\ Payment.phone s2 = Payment.phone s
     /\ Payment.order s2 = Payment.order s0
     /\ storage w2 = storage w1)
    /\ (let '(_, s3, _) := Payment.loadSaved s0 w in
        (storage w !! Payment.ADDRESS_KEY = None -> Payment.address s3 = [])
        /\ (storage w !! Payment.PHONE_KEY = None -> Payment.phone s3 = [])).
Proof.
  intros s s0 w. destruct draft_keys_not_token as (_ & _ & Hne).
  unfold Payment.persistAddress, Payment.persistPhone, Payment.loadSaved,
    Payment.setAddress, Payment.setPhone. run.
  cbn [Payment.address Payment.phone Payment.order].
  rewrite lookup_insert_eq, lookup_insert_ne, lookup_insert_eq by done.
  split_and!; try done; by intros ->.
Qed.
End PaymentFrame.

Section PaymentView.

(** X9: the payment page offers the button that runs [handlePay] exactly
    when it is not loading, the route has an order id and the loaded
    order has status CREATED. The button, the address field and the phone
    field are disabled exactly while a payment is being submitted, and the
    fields show the draft. *)
Theorem pay_button_rendered_iff :
  forall (orderId : option jsstring) (p : Payment.State),
    ((exists label disabled,
        Button label disabled DoHandlePay ∈ Payment.render orderId p)
     <-> Payment.loading p = false
         /\ Payment.no_orderId orderId = false
         /\ exists o, Payment.order p = Some o
                      /\ order_status o = js "CREATED")
    /\ (forall label disabled,
          Button label disabled DoHandlePay ∈ Payment.render orderId p ->
          disabled = Payment.paying p)
    /\ (forall v d, TextArea v d ∈ Payment.render orderId p ->
                    v = Payment.address p /\ d = Payment.paying p)
    /\ (forall v d, Input v d ∈ Payment.render orderId p ->
                    v = Payment.phone p /\ d = Payment.paying p).
Proof.
  intros orderId p.
  unfold Payment.render, Payment.back_to_shop, Payment.isPayable.
  destruct (Payment.loading p); [|destruct (Payment.no_orderId orderId)];
    [| |destruct (Payment.order p) as [o|]; [case_bool_decide as Hst|]].
  all: split_and!;
    [split; [intros (l & d & Hin); members Hin; simplify_eq; by eauto
            |intros (? & ? & o' & ? & ?); simplify_eq]
    |intros l d Hin; members Hin; by simplify_eq
    |intros v d Hin; members Hin; by simplify_eq
    |intros v d Hin; members Hin; by simplify_eq].
  eexists _, _. repeat (rewrite ?elem_of_app, ?elem_of_cons). eauto 15.
Qed.
End PaymentView.

(** ** The order-details page *)

(** [members], keeping where the preimage of a mapped element lies. *)
Ltac members_in H :=
  repeat match type of H with
         | _ ∈ _ ++ _ => apply elem_of_app in H as [H|H]
         | _ ∈ _ :: _ => apply elem_of_cons in H as [H|H]
         | _ ∈ [] => by apply elem_of_nil in H
         | _ ∈ _ <$> _ => apply list_elem_of_fmap in H as (?&H&?)
         end.

Section OrderDetailsPage.
Variable NumberToString : number -> jsstring.
Variable api : Api.

(** X13: the two guards of [load]. Without a token it tells the user to
    log in, enters [/login] and returns at once: the page, its [loading]
    flag included, is left as it was. With a token but no order id in the
    route it sends nothing and ends with no order and [loading] false. *)
Theorem OrderDetails_load_guards :
  forall (orderId : option jsstring) (s : OrderDetails.State) (w : World),
    (falsy_str (storage w !! js "token") = true ->
     OrderDetails.load api orderId s w
     = (tt, s,
        {| storage := storage w;
           trace := trace w ++
             [EvGetItem (js "token");
              EvToastError (VString (js "Please login first"));
              EvNav (js "/login") false] |}))
    /\ (falsy_str (storage w !! js "token") = false ->
        falsy_str orderId = true ->
        OrderDetails.load api orderId s w
        = (tt, {| OrderDetails.loading := false; OrderDetails.order := None |},
           {| storage := storage w;
              trace := trace w ++ [EvGetItem (js "token")] |})).
Proof.
  intros orderId s w.
  unfold OrderDetails.load, OrderDetails.setLoading, OrderDetails.setOrder. run.
  split; intros Htok; rewrite Htok; run.
  - by rewrite <- !app_assoc.
  - by destruct orderId as [[|c id]|].
Qed.

(** X14: with a token, an order id and an accepted call, [load] sends one
    GET to [/orders/{orderId}], without an Authorization header of its
    own, and ends with the order stored and [loading] false. *)
Theorem OrderDetails_load_resolved :
  forall (c : N) (id : jsstring) (s : OrderDetails.State) (w : World)
         (t : N) (token : jsstring) (o : Order),
    storage w !! js "token" = Some (t :: token) ->
    let req := {| req_api := orderApi; req_verb := GET;
                  req_url := js "/orders/" ++ c :: id; req_body := NoBody;
                  req_authorization := None |} in
    get_order api (trace w ++ [EvGetItem (js "token")]) req = Resolved o ->
    OrderDetails.load api (Some (c :: id)) s w
    = (tt, {| OrderDetails.loading := false; OrderDetails.order := Some o |},
       {| storage := storage w;
          trace := trace w ++ [EvGetItem (js "token"); EvRequest req] |}).
Proof.
  intros c id s w t token o Htok req Hres. subst req.
  unfold OrderDetails.load, OrderDetails.setLoading, OrderDetails.setOrder. run.
  rewrite Htok. run. rewrite Hres. run. by rewrite <- !app_assoc.
Qed.

(** X15: the order-details page shows the link "Go to Payment" exactly
    when it is not loading and holds an order of status CREATED; the link
    leads to [/payment/{id}] of that order. Once loaded, the page shows
    one row for each item of the order and no other. *)
Theorem go_to_payment_link_iff :
  forall (s : OrderDetails.State),
    ((exists to, LinkButton to (js "Go to Payment")
                   ∈ OrderDetails.render NumberToString s)
     <-> OrderDetails.loading s = false
         /\ exists o, OrderDetails.order s = Some o
                      /\ order_status o = js "CREATED")
    /\ (forall to, LinkButton to (js "Go to Payment")
                     ∈ OrderDetails.render NumberToString s ->
                   exists o, OrderDetails.order s = Some o
                             /\ to = js "/payment/" ++ NumberToString (order_id o))
    /\ (forall it, ItemRow it ∈ OrderDetails.render NumberToString s
                   <-> OrderDetails.loading s = false
                       /\ exists o, OrderDetails.order s = Some o
                                    /\ it ∈ order_items o).
Proof.
  intros s. unfold OrderDetails.render.
  assert (Hback : js "Back to shop" <> js "Go to Payment") by done.
  destruct (OrderDetails.loading s);
    [|destruct (OrderDetails.order s) as [o|]; [case_bool_decide as Hst|]].
  all: split_and!;
    [split; [intros (to & Hin); members Hin; simplify_eq; by eauto
            |intros (? & o' & ? & ?); simplify_eq]
    |intros to Hin; members Hin; simplify_eq; by eauto
    |split; [intros Hin; members_in Hin; simplify_eq; by eauto
            |intros (? & o' & ? & Hit); simplify_eq]].
  - eexists. repeat (rewrite ?elem_of_app, ?elem_of_cons). eauto 15.
  - repeat (rewrite ?elem_of_app, ?elem_of_cons).
    right. left. right. left. by apply list_elem_of_fmap_2.
  - repeat (rewrite ?elem_of_app, ?elem_of_cons).
    right. left. right. left. by apply list_elem_of_fmap_2.
Qed.
End OrderDetailsPage.

(** ** The payment history *)

Section PaymentsPage.
Variable NumberToString : number -> jsstring.
Variable api : Api.

(** X17: without a token [Payments.load] sends nothing, tells the user to
    log in and enters [/login], leaving the page as it was; with a token
    and an accepted call it sends one GET to [/payments] under the bearer
    token and ends with the answer as the history and [loading] false. *)
Theorem Payments_load_guard_and_success :
  forall (s : Payments.State) (w : World),
    (falsy_str (storage w !! js "token") = true ->
     Payments.load api s w
     = (tt, s,
        {| storage := storage w;
           trace := trace w ++
             [EvGetItem (js "token");
              EvToastError (VString (js "Please login first"));
              EvNav (js "/login") false] |}))
    /\ (forall (t : N) (token : jsstring) (data : list PaymentRecord),
          storage w !! js "token" = Some (t :: token) ->
          let req := {| req_api := paymentApi; req_verb := GET;
                        req_url := js "/payments"; req_body := NoBody;
                        req_authorization := Some (js "Bearer " ++ t :: token) |} in
          get_payments api (trace w ++ [EvGetItem (js "token")]) req = Resolved data ->
          Payments.load api s w
          = (tt, {| Payments.loading := false; Payments.payments := data |},
             {| storage := storage w;
                trace := trace w ++ [EvGetItem (js "token"); EvRequest req] |})).
Proof.
  intros s w.
  unfold Payments.load, Payments.setLoading, Payments.setPayments. run.
  split.
  - intros Htok. destruct (storage w !! js "token") as [[|t token]|]; try done;
      run; by rewrite <- !app_assoc.
  - intros t token data Htok Hres. rewrite Htok. run.
    rewrite Hres. run. by rewrite <- !app_assoc.
Qed.

(** X18: the history shows a link "View order" to [/orders/{order_id}]
    for each payment it holds, and only those, and none while loading;
    the refresh button is disabled exactly while loading. *)
Theorem history_links :
  forall (s : Payments.State),
    (forall to, LinkButton to (js "View order") ∈ Payments.render NumberToString s
                <-> Payments.loading s = false
                    /\ exists p, p ∈ Payments.payments s
                                 /\ to = js "/orders/" ++ NumberToString (pr_order_id p))
    /\ (forall label d, Button label d DoLoad ∈ Payments.render NumberToString s ->
                        d = Payments.loading s).
Proof.
  intros s. unfold Payments.render.
  assert (Hback : js "Back to shop" <> js "View order") by done.
  split.
  - intros to. destruct (Payments.loading s).
    { split; [intros Hin; members Hin; by simplify_eq | by intros [? _]]. }
    split.
    + intros Hin. apply elem_of_app in Hin as [Hin|Hin];
        [members Hin; by simplify_eq|].
      apply elem_of_app in Hin as [Hin|Hin]; [|members Hin; by simplify_eq].
      split; [done|].
      destruct (Payments.payments s) as [|p0 l] eqn:Hl;
        [members Hin; by simplify_eq|].
      rewrite <- Hl in Hin.
      apply list_elem_of_join in Hin as (r & Hto & Hr).
      apply list_elem_of_fmap in Hr as (p & -> & Hp).
      exists p. split; [by rewrite <- Hl|].
      unfold Payments.row in Hto. members Hto; by simplify_eq.
    + intros (_ & p & Hp & ->).
      apply elem_of_app. right. apply elem_of_app. left.
      destruct (Payments.payments s) as [|p0 l] eqn:Hl;
        [by apply elem_of_nil in Hp|].
      rewrite <- Hl. apply list_elem_of_join.
      exists (Payments.row NumberToString p).
      split; [|by apply list_elem_of_fmap_2; rewrite Hl].
      unfold Payments.row. repeat (rewrite ?elem_of_cons). eauto 10.
  - intros label d Hin. apply elem_of_app in Hin as [Hin|Hin];
      [members Hin; by simplify_eq|].
    apply elem_of_app in Hin as [Hin|Hin]; [|members Hin; by simplify_eq].
    destruct (Payments.loading s); [members Hin; by simplify_eq|].
    destruct (Payments.payments s) as [|p0 l] eqn:Hl;
      [members Hin; by simplify_eq|].
    rewrite <- Hl in Hin.
    apply list_elem_of_join in Hin as (r & Hto & Hr).
    apply list_elem_of_fmap in Hr as (p & -> & Hp).
    unfold Payments.row in Hto. members Hto; by simplify_eq.
Qed.
End PaymentsPage.

(** ** The cart page *)

Section CartCheckout.
Variable NumberToString : number -> jsstring.
Variable StringToNumber : jsstring -> number.
Variable JSON_parse : jsstring -> option value.
Variable api : Api.

Lemma missing_nil_iff (s : Cart.State) :
  List.filter (fun x => negb (bool_decide (is_Some (Cart.product x))))
              (Cart.enriched NumberToString s) = []
  <-> forallb (Cart.known NumberToString s) (Cart.items s) = true.
Proof.
  unfold Cart.enriched, Cart.known.
  induction (Cart.items s) as [|it l IH]; [done|]. cbn.
  destruct (bool_decide (is_Some _)); cbn; [exact IH|]. split; discriminate.
Qed.

(** X19: [checkout] sends a request exactly when the cart has items, a
    non-empty token is stored and every item is in the catalogue: then
    one POST to [/orders] whose body is the items of the cart, without an
    Authorization header of its own, and [checkingOut] ends false. In
    every other case it sends nothing and leaves the page and the storage
    as they were. The catalogue and [loading] are never changed. *)
Theorem checkout_sends_iff :
  forall (s : Cart.State) (w : World),
    let ready :=
      negb (Cart.no_items s) && negb (falsy_str (storage w !! js "token"))
      && forallb (Cart.known NumberToString s) (Cart.items s) in
    let req :=
      {| req_api := orderApi; req_verb := POST; req_url := js "/orders";
         req_body := OrderBody (Cart.items s); req_authorization := None |} in
    let '(_, s', w') := Cart.checkout NumberToString api s w in
    requests (drop (length (trace w)) (trace w')) = (if ready then [req] else [])
    /\ Cart.productsById s' = Cart.productsById s
    /\ Cart.loading s' = Cart.loading s
    /\ (if ready then Cart.checkingOut s' = false
        else s' = s /\ storage w' = storage w).
Proof.
  intros s w ready req. subst ready req.
  unfold Cart.checkout, Cart.setCheckingOut, Cart.setItems, Cart.no_items. run.
  destruct (Cart.items s) as [|it l] eqn:Hl; run.
  { rewrite sent_app. by split_and!. }
  destruct (storage w !! js "token") as [[|t token]|] eqn:Htok; run;
    try (rewrite <- !app_assoc, sent_app; by split_and!).
  rewrite <- Hl.
  destruct (forallb (Cart.known NumberToString s) (Cart.items s)) eqn:Hk.
  - rewrite (proj2 (missing_nil_iff s) Hk). run. rewrite copy_items.
    destruct (post_order api _ _) as [data|e]; run;
      [destruct (ToString _ _); run|];
      rewrite <- !app_assoc, sent_app; by split_and!.
  - destruct (List.filter _ _) as [|m ms] eqn:Hm.
    { apply missing_nil_iff in Hm. congruence. }
    run. rewrite <- !app_assoc, sent_app. by split_and!.
Qed.

(** X20: an accepted order. [checkout] removes the cart from the storage,
    empties the item list, announces the order and enters the route of
    the order, with [checkingOut] back to false; a later [readCart] finds
    nothing. If the id in the answer cannot be turned into text, the cart is
    cleared all the same and the user is told that the checkout failed. *)
Theorem checkout_resolved :
  forall (s : Cart.State) (w : World) (t : N) (token : jsstring) (data : value),
    Cart.items s <> [] ->
    storage w !! js "token" = Some (t :: token) ->
    Forall (fun it => is_Some (Cart.productsById s !! NumberToString (product_id it)))
           (Cart.items s) ->
    let req :=
      {| req_api := orderApi; req_verb := POST; req_url := js "/orders";
         req_body := OrderBody (Cart.items s); req_authorization := None |} in
    post_order api (trace w ++ [EvGetItem (js "token")]) req = Resolved data ->
    let '(_, s', w') := Cart.checkout NumberToString api s w in
    s' = {| Cart.items := []; Cart.productsById := Cart.productsById s;
            Cart.loading := Cart.loading s; Cart.checkingOut := false |}
    /\ storage w' = delete (js "cart") (storage w)
    /\ trace w'
       = trace w ++
         [EvGetItem (js "token"); EvRequest req; EvRemoveItem (js "cart")]
         ++ match ToString NumberToString (getProp data (js "id")) with
            | Some id =>
                [EvToastSuccess (VString (js "Order created #" ++ id));
                 EvNav (js "/orders/" ++ id) false]
            | None => [EvToastError (VString (js "Checkout failed"))]
            end
    /\ (Cart.readCart NumberToString StringToNumber JSON_parse s' w').1.1 = [].
Proof.
  intros s w t token data Hitems Htok Hall req Hres. subst req.
  unfold Cart.checkout, Cart.setCheckingOut, Cart.setItems. run.
  destruct (Cart.items s) as [|it l] eqn:Hl; [done|]. run.
  rewrite Htok. run. rewrite <- Hl in Hres |- *.
  rewrite (nothing_missing NumberToString s) by (by rewrite Hl). run.
  rewrite copy_items, Hres. run.
  destruct (ToString _ _) as [id|]; run;
    (split_and!; [done | done | by rewrite <- !app_assoc |]);
    unfold Cart.readCart; run; by rewrite lookup_delete_eq.
Qed.
End CartCheckout.

Section CartCatalogue.
Variable NumberToString : number -> jsstring.
Variable api : Api.

Lemma byId_snoc (l : list Product) (p : Product) :
  Cart.byId NumberToString (l ++ [p])
  = <[NumberToString (prod_id p) := p]> (Cart.byId NumberToString l).
Proof. unfold Cart.byId. by rewrite foldl_snoc. Qed.

Lemma byId_lookup_inv (l : list Product) (k : jsstring) (p : Product) :
  Cart.byId NumberToString l !! k = Some p ->
  p ∈ l /\ NumberToString (prod_id p) = k.
Proof.
  induction l as [|q l IH] using rev_ind; [done|].
  rewrite byId_snoc, lookup_insert. case_decide as Hk.
  - intros [= ->]. split; [|done]. apply elem_of_app. right. by left.
  - intros [Hp ?]%IH. split; [|done]. apply elem_of_app. by left.
Qed.

Lemma byId_lookup_elem (l : list Product) (p : Product) :
  p ∈ l -> is_Some (Cart.byId NumberToString l !! NumberToString (prod_id p)).
Proof.
  induction l as [|q l IH] using rev_ind; [by intros ?%elem_of_nil|].
  rewrite byId_snoc, lookup_insert. case_decide as Hk; [by eexists|].
  intros [Hp|Hp]%elem_of_app; [by apply IH|].
  apply list_elem_of_singleton in Hp as ->. done.
Qed.

(** X23: the index that [run] builds from the catalogue. Every product of
    the catalogue is found under its id; whatever is found under a key is
    a product of the catalogue with that id; of two products with one id
    the later one is kept; a key that is the id of no product is absent. *)
Theorem byId_finds_every_product :
  forall (l : list Product),
    (forall p, p ∈ l ->
       exists p', Cart.byId NumberToString l !! NumberToString (prod_id p) = Some p'
                  /\ p' ∈ l
                  /\ NumberToString (prod_id p') = NumberToString (prod_id p))
    /\ (forall k p, Cart.byId NumberToString l !! k = Some p ->
                    p ∈ l /\ NumberToString (prod_id p) = k)
    /\ (forall p, Cart.byId NumberToString (l ++ [p]) !! NumberToString (prod_id p)
                  = Some p)
    /\ (forall k, Forall (fun p => NumberToString (prod_id p) <> k) l ->
                  Cart.byId NumberToString l !! k = None).
Proof.
  intros l. split_and!.
  - intros p [p' Hp']%byId_lookup_elem. exists p'. split; [done|].
    by apply byId_lookup_inv.
  - apply byId_lookup_inv.
  - intros p. by rewrite byId_snoc, lookup_insert_eq.
  - intros k Hall.
    destruct (Cart.byId NumberToString l !! k) as [p|] eqn:Hk; [|done].
    apply byId_lookup_inv in Hk as [Hp Hkey].
    rewrite Forall_forall in Hall. by destruct (Hall p Hp).
Qed.

(** X24: an accepted catalogue. [run] sends one GET to [/products] and
    ends with the index of the answer and [loading] false, the items and
    the storage untouched and nothing notified. An item of the cart is
    then known, in the sense of the check of [checkout], exactly when the
    catalogue holds a product whose id prints like the id of the item. *)
Theorem run_resolved :
  forall (s : Cart.State) (w : World) (data : list Product),
    let req := {| req_api := productApi; req_verb := GET;
                  req_url := js "/products"; req_body := NoBody;
                  req_authorization := None |} in
    get_products api (trace w) req = Resolved data ->
    let '(_, s', w') := Cart.run NumberToString api s w in
    s' = {| Cart.items := Cart.items s;
            Cart.productsById := Cart.byId NumberToString data;
            Cart.loading := false; Cart.checkingOut := Cart.checkingOut s |}
    /\ w' = {| storage := storage w; trace := trace w ++ [EvRequest req] |}
    /\ (forall it,
          Cart.known NumberToString s' it = true
          <-> exists p, p ∈ data
                        /\ NumberToString (prod_id p)
                           = NumberToString (product_id it)).
Proof.
  intros s w data req Hres. subst req.
  unfold Cart.run, Cart.setLoading, Cart.setProductsById. run.
  rewrite Hres. run. split_and!; try done.
  intros it. unfold Cart.known. cbn [Cart.productsById].
  rewrite bool_decide_eq_true. split.
  - intros [p Hp]. exists p. by apply byId_lookup_inv.
  - intros (p & Hp & <-). by apply byId_lookup_elem.
Qed.
End CartCatalogue.

Section CartEditing.
Variable NumberToString : number -> jsstring.
Variable StringToNumber : jsstring -> number.
Variable JSON_parse : jsstring -> option value.
Variable JSON_stringify : value -> jsstring.

(** X25: [removeItem] drops every entry of the product and keeps every
    other entry, in order; the new list is what it writes under [cart],
    and it announces the removal. With NaN as the id, which equals no id,
    nothing is dropped. *)
Theorem removeItem_removes_product :
  forall (pid : number) (s : Cart.State) (w : World),
    let '(_, s', w') := Cart.removeItem JSON_stringify pid s w in
    (forall x, x ∈ Cart.items s'
               <-> x ∈ Cart.items s /\ num_eq (product_id x) pid = false)
    /\ sublist (Cart.items s') (Cart.items s)
    /\ storage w'
       = <[js "cart" := JSON_stringify (VArray (Cart.item_value <$> Cart.items s'))]>
           (storage w)
    /\ trace w'
       = trace w ++
         [EvSetItem (js "cart")
            (JSON_stringify (VArray (Cart.item_value <$> Cart.items s')));
          EvToastSuccess (VString (js "Removed from cart"))]
    /\ (pid = NaN -> Cart.items s' = Cart.items s).
Proof.
  intros pid s w.
  unfold Cart.removeItem, Cart.writeCart, Cart.setItems. run.
  cbn [Cart.items]. split_and!.
  - intros x. rewrite list_elem_of_In, filter_In, <- list_elem_of_In.
    by rewrite negb_true_iff.
  - induction (Cart.items s) as [|x l IH]; [done|]. cbn.
    destruct (negb _); by constructor.
  - done.
  - by rewrite <- !app_assoc.
  - intros ->. apply forallb_filter_id, forallb_forall. intros x _.
    by destruct (product_id x).
Qed.

(** X26: after [clearCart] the item list is empty, nothing is stored
    under [cart], and [readCart] finds nothing. *)
Theorem clearCart_then_readCart :
  forall (s : Cart.State) (w : World),
    let '(_, s1, w1) := Cart.clearCart s w in
    Cart.items s1 = []
    /\ storage w1 = delete (js "cart") (storage w)
    /\ trace w1
       = trace w ++ [EvRemoveItem (js "cart");
                     EvToastSuccess (VString (js "Cart cleared"))]
    /\ (Cart.readCart NumberToString StringToNumber JSON_parse s1 w1).1.1 = [].
Proof.
  intros s w. unfold Cart.clearCart, Cart.setItems, Cart.readCart. run.
  rewrite lookup_delete_eq. split_and!; try done. by rewrite <- !app_assoc.
Qed.

Lemma toItem_item_value (i : CartItem) :
  Cart.toItem NumberToString StringToNumber (Cart.item_value i) = Some i.
Proof. by destruct i. Qed.

(** X27: the cart survives a reload. If the JSON codec of the runtime
    gives back the array that [writeCart] serialises, and its text is not
    empty, then [readCart] after [writeCart] returns the written items
    that have a finite id and a finite quantity above 0, in order: all of
    them when all are such. *)
Theorem writeCart_readCart_round_trip :
  forall (items : list CartItem) (S : Type) (s : S) (w : World),
    let text := JSON_stringify (VArray (Cart.item_value <$> items)) in
    text <> [] ->
    JSON_parse text = Some (VArray (Cart.item_value <$> items)) ->
    let '(_, s1, w1) := Cart.writeCart JSON_stringify items s w in
    let '(l, s2, w2) :=
      Cart.readCart NumberToString StringToNumber JSON_parse s1 w1 in
    l = List.filter (Cart.keep) items
    /\ (Forall (fun x => Cart.keep x = true) items -> l = items)
    /\ s2 = s /\ storage w2 = storage w1.
Proof.
  intros items S s w text Hne Hparse. subst text.
  unfold Cart.writeCart, Cart.readCart, Cart.parseCart. run.
  rewrite lookup_insert_eq.
  destruct (JSON_stringify _) as [|c text] eqn:Htext; [done|].
  rewrite Hparse.
  rewrite (mapM_fmap_Some _ _ _ toItem_item_value).
  split_and!; try done.
  intros Hall. apply forallb_filter_id, forallb_forall.
  intros x Hx. rewrite Forall_forall in Hall. apply Hall.
  by apply list_elem_of_In.
Qed.

(** X28: [setQty] keeps the shape of the cart: the same products in the
    same order, the catalogue and the flags untouched. A product that is
    not in the cart changes no entry, and asking twice for the same
    quantity is asking once. *)
Theorem setQty_keeps_shape :
  forall (pid v : number) (s : Cart.State) (w : World),
    let '(_, s1, w1) := Cart.setQty JSON_stringify pid v s w in
    product_id <$> Cart.items s1 = product_id <$> Cart.items s
    /\ length (Cart.items s1) = length (Cart.items s)
    /\ Cart.productsById s1 = Cart.productsById s
    /\ Cart.loading s1 = Cart.loading s
    /\ Cart.checkingOut s1 = Cart.checkingOut s
    /\ (Forall (fun x => num_eq (product_id x) pid = false) (Cart.items s) ->
        Cart.items s1 = Cart.items s)
    /\ (let '(_, s2, w2) := Cart.setQty JSON_stringify pid v s1 w1 in
        s2 = s1 /\ storage w2 = storage w1).
Proof.
  intros pid v s w.
  unfold Cart.setQty, Cart.writeCart, Cart.setItems. run.
  cbn [Cart.items Cart.productsById Cart.loading Cart.checkingOut].
  set (f := fun x : CartItem =>
              if num_eq (product_id x) pid
              then {| product_id := product_id x;
                      qty := Math_max (num 1) (Math_floor (num_or v (num 1))) |}
              else x).
  assert (Hid : forall x, product_id (f x) = product_id x).
  { intros x. unfold f. by destruct (num_eq _ _). }
  assert (Hff : forall x, f (f x) = f x).
  { intros x. unfold f at 1. rewrite Hid. unfold f.
    by destruct (num_eq (product_id x) pid). }
  assert (Hidem : f <$> (f <$> Cart.items s) = f <$> Cart.items s).
  { rewrite <- list_fmap_compose. apply list_fmap_ext. intros _ x _. apply Hff. }
  split_and!; try done.
  - rewrite <- list_fmap_compose. apply list_fmap_ext. intros _ x _. apply Hid.
  - by rewrite length_fmap.
  - intros Hall. rewrite <- (list_fmap_id (Cart.items s)) at 2.
    apply Forall_fmap_ext_1. eapply Forall_impl; [exact Hall|].
    intros x Hx. unfold f. by rewrite Hx.
  - by rewrite Hidem.
  - rewrite Hidem. by rewrite insert_insert_eq.
Qed.
End CartEditing.

Section CartView.
Variable NumberToString : number -> jsstring.

(** X29: the buttons of the cart page. The checkout button is shown
    exactly when the page is not loading and the cart has items, and is
    disabled exactly while a checkout is running; the clear button is
    disabled exactly for an empty cart; every minus button belongs to an
    item of the cart and is disabled exactly when its quantity is at
    most 1. *)
Theorem cart_buttons :
  forall (s : Cart.State),
    ((exists label d, Cart.CheckoutButton label d ∈ Cart.render NumberToString s)
     <-> Cart.loading s = false /\ Cart.items s <> [])
    /\ (forall label d, Cart.CheckoutButton label d ∈ Cart.render NumberToString s ->
                        d = Cart.checkingOut s)
    /\ (forall d, Cart.ClearButton d ∈ Cart.render NumberToString s ->
                  d = bool_decide (Cart.items s = []))
    /\ (forall pid q d,
          Cart.MinusButton pid q d ∈ Cart.render NumberToString s ->
          d = num_le q (num 1)
          /\ {| product_id := pid; qty := q |} ∈ Cart.items s).
Proof.
  intros s. unfold Cart.render, Cart.no_items, Cart.enriched.
  destruct (Cart.loading s).
  { split_and!;
      [split; [intros (l & d & Hin); members Hin; by simplify_eq | by intros [? _]]
      |intros l d Hin; members Hin; by simplify_eq
      |intros d Hin; members Hin; by simplify_eq
      |intros pid q d Hin; members Hin; by simplify_eq]. }
  destruct (Cart.items s) as [|it0 l0] eqn:Hl.
  { split_and!;
      [split; [intros (l & d & Hin); members Hin; by simplify_eq | by intros [_ ?]]
      |intros l d Hin; members Hin; by simplify_eq
      |intros d Hin; members Hin; by simplify_eq
      |intros pid q d Hin; members Hin; by simplify_eq]. }
  rewrite <- Hl.
  assert (Hline : forall (w : Cart.widget),
            w ∈ mjoin (Cart.line NumberToString <$>
                         ((fun it =>
                             {| Cart.item := it;
                                Cart.product :=
                                  Cart.productsById s !! NumberToString (product_id it);
                                Cart.unit_price :=
                                  match Cart.productsById s
                                          !! NumberToString (product_id it) with
                                  | Some p => prod_price p
                                  | None => num 0
                                  end |}) <$> Cart.items s)) ->
            exists it, it ∈ Cart.items s
                       /\ w ∈ Cart.line NumberToString
                             {| Cart.item := it;
                                Cart.product :=
                                  Cart.productsById s !! NumberToString (product_id it);
                                Cart.unit_price :=
                                  match Cart.productsById s
                                          !! NumberToString (product_id it) with
                                  | Some p => prod_price p
                                  | None => num 0
                                  end |}).
  { intros x (r & Hx & Hr)%list_elem_of_join.
    apply list_elem_of_fmap in Hr as (e & -> & He).
    apply list_elem_of_fmap in He as (it & -> & Hit). by exists it. }
  split_and!.
  - split; [intros _; split; [done | by rewrite Hl]|]. intros _.
    eexists _, _. repeat (rewrite ?elem_of_app, ?elem_of_cons). eauto 15.
  - intros label d Hin. apply elem_of_app in Hin as [Hin|Hin];
      [members Hin; by simplify_eq|].
    apply elem_of_app in Hin as [Hin|Hin]; [|members Hin; by simplify_eq].
    apply Hline in Hin as (it & _ & Hin). unfold Cart.line in Hin.
    members Hin; by simplify_eq.
  - intros d Hin. apply elem_of_app in Hin as [Hin|Hin].
    { members Hin; simplify_eq. by rewrite Hl. }
    apply elem_of_app in Hin as [Hin|Hin]; [|members Hin; by simplify_eq].
    apply Hline in Hin as (it & _ & Hin). unfold Cart.line in Hin.
    members Hin; by simplify_eq.
  - intros pid q d Hin. apply elem_of_app in Hin as [Hin|Hin];
      [members Hin; by simplify_eq|].
    apply elem_of_app in Hin as [Hin|Hin]; [|members Hin; by simplify_eq].
    apply Hline in Hin as (it & Hit & Hin). unfold Cart.line in Hin.
    cbn [Cart.item] in Hin. members Hin; simplify_eq.
    split; [done|]. by destruct it.
Qed.
End CartView.

(** ** The further properties at work on the sample pages *)

Section FurtherInstances.
Import Sample.

Lemma validateForm_accepts_iff_witness :
  let blank := {| Payment.order := None; Payment.loading := false;
                  Payment.paying := false; Payment.address := js "   ";
                  Payment.phone := js "12345" |} in
  trim (Payment.address blank) = []
  /\ let '(ok, _, w') := Payment.validateForm blank fresh in
     ok = false
     /\ trace w' = [EvToastError (VString (js "Please enter your shipping address"))].
Proof.
  intros blank. split; [reflexivity|].
  pose proof (validateForm_accepts_iff blank fresh) as H.
  destruct (Payment.validateForm blank fresh) as [[ok s'] w'].
  destruct H as (Hok & _ & _ & _ & Hmsg).
  split; [by rewrite Hok | exact (Hmsg eq_refl)].
Defined.

Lemma Payment_handlers_need_token_witness :
  falsy_str (storage fresh !! js "token") = true
  /\ Payment.no_orderId (Some (js "7")) = false
  /\ (Payment.handlePay accepting (Some (js "7")) paymentForm fresh).1.1 = None
  /\ requests (trace (Payment.handlePay accepting (Some (js "7"))
                        paymentForm fresh).2) = [].
Proof.
  split; [reflexivity|]. split; [reflexivity|].
  destruct (Payment_handlers_need_token accepting (Some (js "7")) (js "7")
              paymentForm fresh eq_refl) as [_ H].
  rewrite (H eq_refl). by split.
Defined.

Lemma Payment_loadOrder_resolved_witness :
  storage loggedIn !! js "token" = Some (js "t0k3n")
  /\ (Payment.loadOrder accepting (js "7") paymentForm loggedIn).1.1 = Some order7
  /\ Payment.order (Payment.loadOrder accepting (js "7") paymentForm loggedIn).1.2
     = Some order7.
Proof.
  split; [reflexivity|].
  rewrite (Payment_loadOrder_resolved accepting (js "7") paymentForm loggedIn
             116%N (js "0k3n") order7 eq_refl eq_refl).
  by split.
Defined.

(** The payment goes through and the refresh is refused with 401: the
    token is gone and the last route is [/payments]. *)
Lemma handlePay_resolved_witness :
  (storage loggedIn !! js "token" = Some (js "t0k3n")
   /\ trim (Payment.address paymentForm) <> []
   /\ Payment.isValidPhone (Payment.phone paymentForm) = true)
  /\ let '(r, s', w') :=
       Payment.handlePay (payingOnly 401) (Some (js "7")) paymentForm loggedIn in
     r = Some {| pay_ok := true; payment_id := num 1 |}
     /\ Payment.paying s' = false
     /\ storage w' !! js "token" = None
     /\ last (trace w') = Some (EvNav (js "/payments") true).
Proof.
  assert (Ha : trim (Payment.address paymentForm) <> []) by done.
  split; [by split_and!|].
  change (js "7") with [55%N].
  rewrite (handlePay_resolved (payingOnly 401) 55%N [] paymentForm loggedIn
             116%N (js "0k3n") {| pay_ok := true; payment_id := num 1 |}
             eq_refl Ha eq_refl eq_refl).
  by split_and!.
Defined.

Lemma onOrderId_ends_loading_witness :
  Payment.no_orderId None = true
  /\ let '(_, s', w') := Payment.onOrderId accepting None paymentForm loggedIn in
     Payment.loading s' = false /\ Payment.order s' = None /\ w' = loggedIn.
Proof.
  split; [reflexivity|].
  pose proof (onOrderId_ends_loading accepting None paymentForm loggedIn) as H.
  destruct (Payment.onOrderId accepting None paymentForm loggedIn)
    as [[u s'] w'].
  destruct H as (Hl & _ & _ & _ & _ & Hnone).
  destruct (Hnone eq_refl) as [Ho Hw]. by split_and!.
Defined.

Lemma saved_draft_round_trip_witness :
  storage fresh !! Payment.ADDRESS_KEY = None
  /\ storage fresh !! Payment.PHONE_KEY = None
  /\ let '(_, s3, _) := Payment.loadSaved paymentForm fresh in
     Payment.address s3 = [] /\ Payment.phone s3 = [].
Proof.
  split; [reflexivity|]. split; [reflexivity|].
  destruct (saved_draft_round_trip paymentForm paymentForm fresh) as [_ H].
  destruct (Payment.loadSaved paymentForm fresh) as [[u s3] w3].
  destruct H as [Ha Hp]. split; [exact (Ha eq_refl) | exact (Hp eq_refl)].
Defined.

Lemma pay_button_rendered_iff_witness :
  (Payment.loading paymentForm = false
   /\ Payment.no_orderId (Some (js "7")) = false
   /\ exists o, Payment.order paymentForm = Some o
                /\ order_status o = js "CREATED")
  /\ exists label disabled,
       Button label disabled DoHandlePay
         ∈ Payment.render (Some (js "7")) paymentForm.
Proof.
  assert (H : Payment.loading paymentForm = false
              /\ Payment.no_orderId (Some (js "7")) = false
              /\ exists o, Payment.order paymentForm = Some o
                           /\ order_status o = js "CREATED")
    by (split_and!; [done | done | by exists order7]).
  split; [exact H|].
  by apply (proj1 (pay_button_rendered_iff (Some (js "7")) paymentForm)).
Defined.

Lemma Payment_loadOrder_rejected_witness :
  storage loggedIn !! js "token" = Some (js "t0k3n")
  /\ let '(r, s', w') :=
       Payment.loadOrder (rejecting 403) (js "7") paymentForm loggedIn in
     r = None /\ s' = paymentForm
     /\ storage w' !! js "token" = None
     /\ last (trace w') = Some (EvNav (js "/login") false).
Proof.
  split; [reflexivity|].
  rewrite (Payment_loadOrder_rejected (rejecting 403) (js "7") paymentForm
             loggedIn 116%N (js "0k3n") _ eq_refl eq_refl).
  by split_and!.
Defined.

Lemma handlePay_rejected_witness :
  (storage loggedIn !! js "token" = Some (js "t0k3n")
   /\ trim (Payment.address paymentForm) <> []
   /\ Payment.isValidPhone (Payment.phone paymentForm) = true)
  /\ let '(r, s', w') :=
       Payment.handlePay (rejecting 500) (Some (js "7")) paymentForm loggedIn in
     r = None /\ Payment.paying s' = false
     /\ storage w' = storage loggedIn
     /\ last (trace w') = Some (EvToastError (VString (js "Payment failed"))).
Proof.
  assert (Ha : trim (Payment.address paymentForm) <> []) by done.
  split; [by split_and!|].
  change (js "7") with [55%N].
  rewrite (handlePay_rejected (rejecting 500) 55%N [] paymentForm loggedIn
             116%N (js "0k3n") _ eq_refl Ha eq_refl eq_refl).
  by split_and!.
Defined.

Lemma OrderDetails_load_rejected_witness :
  storage loggedIn !! js "token" = Some (js "t0k3n")
  /\ let '(_, s', w') :=
       OrderDetails.load (rejecting 403) (Some (js "7")) orderPage loggedIn in
     s' = {| OrderDetails.loading := false; OrderDetails.order := None |}
     /\ storage w' = storage loggedIn
     /\ last (trace w') = Some (EvToastError (VString (js "Failed to load order"))).
Proof.
  split; [reflexivity|].
  change (js "7") with [55%N].
  rewrite (OrderDetails_load_rejected (rejecting 403) 55%N [] orderPage
             loggedIn 116%N (js "0k3n") _ eq_refl eq_refl).
  by split_and!.
Defined.

Lemma OrderDetails_load_guards_witness :
  falsy_str (storage fresh !! js "token") = true
  /\ (falsy_str (storage loggedIn !! js "token") = false
      /\ falsy_str (None : option (list N)) = true)
  /\ (OrderDetails.load accepting (Some (js "7")) orderPage fresh).1.2 = orderPage
  /\ requests (trace (OrderDetails.load accepting None orderPage loggedIn).2) = [].
Proof.
  split; [reflexivity|]. split; [by split|].
  destruct (OrderDetails_load_guards accepting (Some (js "7")) orderPage fresh)
    as [H1 _].
  destruct (OrderDetails_load_guards accepting None orderPage loggedIn)
    as [_ H2].
  rewrite (H1 eq_refl), (H2 eq_refl eq_refl). by split.
Defined.

Lemma OrderDetails_load_resolved_witness :
  storage loggedIn !! js "token" = Some (js "t0k3n")
  /\ (OrderDetails.load accepting (Some (js "7"))
        {| OrderDetails.loading := true; OrderDetails.order := None |}
        loggedIn).1.2
     = orderPage.
Proof.
  split; [reflexivity|].
  change (js "7") with [55%N].
  by rewrite (OrderDetails_load_resolved accepting 55%N []
                {| OrderDetails.loading := true; OrderDetails.order := None |}
                loggedIn 116%N (js "0k3n") order7 eq_refl eq_refl).
Defined.

Lemma go_to_payment_link_iff_witness :
  (OrderDetails.loading orderPage = false
   /\ exists o, OrderDetails.order orderPage = Some o
                /\ order_status o = js "CREATED")
  /\ (exists to, LinkButton to (js "Go to Payment")
                   ∈ OrderDetails.render showNumber orderPage).
Proof.
  assert (H : OrderDetails.loading orderPage = false
              /\ exists o, OrderDetails.order orderPage = Some o
                           /\ order_status o = js "CREATED")
    by (split; [done | by exists order7]).
  split; [exact H|].
  by apply (proj1 (go_to_payment_link_iff showNumber orderPage)).
Defined.

Lemma Payments_load_rejected_witness :
  storage loggedIn !! js "token" = Some (js "t0k3n")
  /\ let '(_, s', w') := Payments.load (rejecting 401) historyPage loggedIn in
     Payments.loading s' = false
     /\ storage w' !! js "token" = None
     /\ last (trace w') = Some (EvNav (js "/login") false).
Proof.
  split; [reflexivity|].
  rewrite (Payments_load_rejected (rejecting 401) historyPage loggedIn
             116%N (js "0k3n") _ eq_refl eq_refl).
  by split_and!.
Defined.

Lemma Payments_load_guard_and_success_witness :
  falsy_str (storage fresh !! js "token") = true
  /\ storage loggedIn !! js "token" = Some (js "t0k3n")
  /\ (Payments.load accepting historyPage fresh).1.2 = historyPage
  /\ (Payments.load accepting historyPage loggedIn).1.2
     = {| Payments.loading := false; Payments.payments := [] |}.
Proof.
  split; [reflexivity|]. split; [reflexivity|].
  destruct (Payments_load_guard_and_success accepting historyPage fresh)
    as [H1 _].
  destruct (Payments_load_guard_and_success accepting historyPage loggedIn)
    as [_ H2].
  rewrite (H1 eq_refl), (H2 116%N (js "0k3n") [] eq_refl eq_refl). by split.
Defined.

Lemma history_links_witness :
  let page := {| Payments.loading := false; Payments.payments := [payment1] |} in
  (Payments.loading page = false
   /\ exists p, p ∈ Payments.payments page
                /\ js "/orders/7" = js "/orders/" ++ showNumber (pr_order_id p))
  /\ LinkButton (js "/orders/7") (js "View order") ∈ Payments.render showNumber page.
Proof.
  intros page.
  assert (H : Payments.loading page = false
              /\ exists p, p ∈ Payments.payments page
                           /\ js "/orders/7"
                              = js "/orders/" ++ showNumber (pr_order_id p)).
  { split; [done|]. exists payment1. split; [by left | done]. }
  split; [exact H|].
  by apply (proj1 (history_links showNumber page)).
Defined.
End FurtherInstances.

Section CartInstances.
Import Sample.

Lemma cartPage_known :
  Forall (fun it => is_Some (Cart.productsById cartPage !! showNumber (product_id it)))
         (Cart.items cartPage).
Proof. repeat constructor. by eexists. Defined.

Lemma checkout_resolved_witness :
  (Cart.items cartPage <> []
   /\ storage loggedIn !! js "token" = Some (js "t0k3n"))
  /\ let '(_, s', w') := Cart.checkout showNumber accepting cartPage loggedIn in
     s' = emptyCart
     /\ last (trace w') = Some (EvNav (js "/orders/7") false)
     /\ (Cart.readCart showNumber readNumber parse s' w').1.1 = [].
Proof.
  assert (Hitems : Cart.items cartPage <> []) by done.
  split; [by split|].
  pose proof (checkout_resolved showNumber readNumber parse accepting cartPage
                loggedIn 116%N (js "0k3n") _ Hitems eq_refl cartPage_known
                eq_refl) as H.
  destruct (Cart.checkout showNumber accepting cartPage loggedIn)
    as [[u s'] w'].
  destruct H as (Hs & _ & Ht & Hread).
  split_and!; [by rewrite Hs | by rewrite Ht | exact Hread].
Defined.

Lemma Cart_checkout_rejected_witness :
  (Cart.items cartPage <> []
   /\ storage loggedIn !! js "token" = Some (js "t0k3n"))
  /\ let '(_, s', w') :=
       Cart.checkout showNumber (rejecting 401) cartPage loggedIn in
     s' = cartPage
     /\ storage w' = storage loggedIn
     /\ last (trace w') = Some (EvToastError (VString (js "Checkout failed"))).
Proof.
  assert (Hitems : Cart.items cartPage <> []) by done.
  split; [by split|].
  rewrite (Cart_checkout_rejected (rejecting 401) showNumber cartPage loggedIn
             116%N (js "0k3n") _ Hitems eq_refl cartPage_known eq_refl).
  by split_and!.
Defined.

Lemma Cart_run_rejected_witness :
  get_products (rejecting 401) (trace loggedIn)
    {| req_api := productApi; req_verb := GET; req_url := js "/products";
       req_body := NoBody; req_authorization := None |}
  = Rejected {| err_status := VNumber (num 401); err_detail := VUndefined |}
  /\ let '(_, s', w') := Cart.run showNumber (rejecting 401) cartPage loggedIn in
     s' = cartPage
     /\ storage w' = storage loggedIn
     /\ last (trace w')
        = Some (EvToastError (VString (js "Failed to load products"))).
Proof.
  split; [reflexivity|].
  rewrite (Cart_run_rejected (rejecting 401) showNumber cartPage loggedIn _
             eq_refl).
  by split_and!.
Defined.

Lemma byId_finds_every_product_witness :
  candy ∈ [candy]
  /\ exists p', Cart.byId showNumber [candy] !! js "1" = Some p' /\ p' ∈ [candy].
Proof.
  assert (Hin : candy ∈ [candy]) by (by left).
  split; [exact Hin|].
  destruct (byId_finds_every_product showNumber [candy]) as (Hfind & _).
  destruct (Hfind candy Hin) as (p' & Hp' & Hl & _). by exists p'.
Defined.

Lemma run_resolved_witness :
  get_products accepting (trace loggedIn)
    {| req_api := productApi; req_verb := GET; req_url := js "/products";
       req_body := NoBody; req_authorization := None |}
  = Resolved [candy]
  /\ let '(_, s', w') :=
       Cart.run showNumber accepting
         {| Cart.items := Cart.items cartPage; Cart.productsById := ∅;
            Cart.loading := true; Cart.checkingOut := false |} loggedIn in
     s' = cartPage
     /\ requests (trace w')
        = [{| req_api := productApi; req_verb := GET; req_url := js "/products";
              req_body := NoBody; req_authorization := None |}].
Proof.
  split; [reflexivity|].
  pose proof (run_resolved showNumber accepting
                {| Cart.items := Cart.items cartPage; Cart.productsById := ∅;
                   Cart.loading := true; Cart.checkingOut := false |}
                loggedIn [candy] eq_refl) as H.
  destruct (Cart.run showNumber accepting _ loggedIn) as [[u s'] w'].
  destruct H as (Hs & Hw & _). split; [by rewrite Hs | by rewrite Hw].
Defined.

Lemma removeItem_removes_product_witness :
  let '(_, s', _) := Cart.removeItem stringify NaN cartPage loggedIn in
  Cart.items s' = Cart.items cartPage.
Proof.
  pose proof (removeItem_removes_product stringify NaN cartPage loggedIn) as H.
  destruct (Cart.removeItem stringify NaN cartPage loggedIn) as [[u s'] w'].
  destruct H as (_ & _ & _ & _ & Hnan). exact (Hnan eq_refl).
Defined.

Lemma writeCart_readCart_round_trip_witness :
  (stringify (VArray (Cart.item_value <$> Cart.items cartPage)) <> []
   /\ parseWritten (stringify (VArray (Cart.item_value <$> Cart.items cartPage)))
      = Some (VArray (Cart.item_value <$> Cart.items cartPage))
   /\ Forall (fun x => Cart.keep x = true) (Cart.items cartPage))
  /\ let '(_, s1, w1) := Cart.writeCart stringify (Cart.items cartPage) cartPage fresh in
     (Cart.readCart showNumber readNumber parseWritten s1 w1).1.1
     = Cart.items cartPage.
Proof.
  assert (Hne : stringify (VArray (Cart.item_value <$> Cart.items cartPage)) <> [])
    by done.
  assert (Hkeep : Forall (fun x => Cart.keep x = true) (Cart.items cartPage))
    by (repeat constructor).
  split; [by split_and!|].
  pose proof (writeCart_readCart_round_trip showNumber readNumber parseWritten
                stringify (Cart.items cartPage) _ cartPage fresh Hne eq_refl)
    as H.
  destruct (Cart.writeCart stringify (Cart.items cartPage) cartPage fresh)
    as [[u s1] w1].
  destruct (Cart.readCart showNumber readNumber parseWritten s1 w1)
    as [[l s2] w2].
  destruct H as (_ & Hall & _). exact (Hall Hkeep).
Defined.

Lemma setQty_keeps_shape_witness :
  Forall (fun x => num_eq (product_id x) (num 9) = false) (Cart.items cartPage)
  /\ let '(_, s1, _) := Cart.setQty stringify (num 9) (num 5) cartPage loggedIn in
     Cart.items s1 = Cart.items cartPage.
Proof.
  assert (Habsent : Forall (fun x => num_eq (product_id x) (num 9) = false)
                           (Cart.items cartPage))
    by (repeat constructor).
  split; [exact Habsent|].
  pose proof (setQty_keeps_shape stringify (num 9) (num 5) cartPage loggedIn)
    as H.
  destruct (Cart.setQty stringify (num 9) (num 5) cartPage loggedIn)
    as [[u s1] w1].
  destruct H as (_ & _ & _ & _ & _ & Hsame & _). exact (Hsame Habsent).
Defined.

Lemma cart_buttons_witness :
  (Cart.loading cartPage = false /\ Cart.items cartPage <> [])
  /\ exists label d, Cart.CheckoutButton label d ∈ Cart.render showNumber cartPage.
Proof.
  assert (H : Cart.loading cartPage = false /\ Cart.items cartPage <> [])
    by done.
  split; [exact H|].
  by apply (proj1 (cart_buttons showNumber cartPage)).
Defined.
End CartInstances.

Section CartInvariant.
Variable NumberToString : number -> jsstring.
Variable StringToNumber : jsstring -> number.
Variable JSON_parse : jsstring -> option value.
Variable JSON_stringify : value -> jsstring.

Lemma parseCart_keep (raw : option jsstring) :
  Forall (fun x => Cart.keep x = true)
         (Cart.parseCart NumberToString StringToNumber JSON_parse raw).
Proof.
  unfold Cart.parseCart.
  destruct raw as [[|c raw]|]; try constructor.
  destruct (JSON_parse (c :: raw)) as [[| | | | |xs|]|]; try constructor.
  destruct (mapM _ xs) as [mapped|]; try constructor.
  apply List.Forall_forall. by intros x [_ Hx]%filter_In.
Qed.

Lemma keep_clamped (pid v : number) :
  v <> PosInf -> Number_isFinite pid = true ->
  Cart.keep {| product_id := pid; qty := clamped_floor v |} = true.
Proof.
  intros Hv Hpid. unfold Cart.keep. cbn [product_id qty]. rewrite Hpid.
  assert (exists z : Z, clamped_floor v = num z /\ (1 <= z)%Z) as (z & -> & Hz).
  { destruct v as [| | |x]; try done; cbn; eexists; split; try done; lia. }
  unfold num. cbn [Number_isFinite num_gt andb]. rewrite Qle_bool_inject.
  apply negb_true_iff, Z.leb_gt. lia.
Qed.

(** X30: the items of the cart page stay well formed, that is with a
    finite id and a finite quantity above 0. What the page loads on mount
    or on a storage event for [cart] is well formed; a storage event for
    another key is ignored; [removeItem] keeps the items well formed, and
    so does [setQty] for every requested quantity but +Infinity. *)
Theorem cart_items_stay_wellformed :
  forall (s : Cart.State) (w : World),
    let ok (l : list CartItem) := Forall (fun x => Cart.keep x = true) l in
    (let '(_, s1, _) :=
       Cart.onMount NumberToString StringToNumber JSON_parse s w in
     ok (Cart.items s1))
    /\ (forall key,
          let '(_, s1, w1) :=
            Cart.onStorage NumberToString StringToNumber JSON_parse key s w in
          (key <> Some (js "cart") -> s1 = s /\ w1 = w)
          /\ (ok (Cart.items s) -> ok (Cart.items s1)))
    /\ (forall pid v,
          v <> PosInf -> ok (Cart.items s) ->
          let '(_, s1, _) := Cart.setQty JSON_stringify pid v s w in
          ok (Cart.items s1))
    /\ (forall pid,
          ok (Cart.items s) ->
          let '(_, s1, _) := Cart.removeItem JSON_stringify pid s w in
          ok (Cart.items s1)).
Proof.
  intros s w ok. subst ok.
  unfold Cart.onMount, Cart.onStorage, Cart.readCart, Cart.setQty,
    Cart.removeItem, Cart.writeCart, Cart.setItems. run.
  cbn [Cart.items]. split_and!.
  - apply parseCart_keep.
  - intros key. case_bool_decide as Hk; run; cbn [Cart.items].
    + split; [done|]. intros _. apply parseCart_keep.
    + split; [done|]. done.
  - intros pid v Hv Hall. rewrite setQty_quantity, Forall_fmap.
    eapply Forall_impl; [exact Hall|]. intros x Hx. cbn.
    destruct (num_eq (product_id x) pid); [|done].
    apply keep_clamped; [done|].
    unfold Cart.keep in Hx. by destruct (Number_isFinite (product_id x)).
  - intros pid Hall. rewrite Forall_forall in Hall. apply Forall_forall.
    intros x [Hx _]%list_elem_of_In%filter_In. apply Hall.
    by apply list_elem_of_In.
Qed.
End CartInvariant.

Section CartInvariantInstance.
Import Sample.

Lemma cart_items_stay_wellformed_witness :
  (num 0 <> PosInf
   /\ Forall (fun x => Cart.keep x = true) (Cart.items cartPage))
  /\ let '(_, s1, _) := Cart.setQty stringify (num 1) (num 0) cartPage loggedIn in
     Forall (fun x => Cart.keep x = true) (Cart.items s1).
Proof.
  assert (Hv : num 0 <> PosInf) by done.
  assert (Hall : Forall (fun x => Cart.keep x = true) (Cart.items cartPage))
    by (repeat constructor).
  split; [by split|].
  destruct (cart_items_stay_wellformed showNumber readNumber parse stringify
              cartPage loggedIn) as (_ & _ & Hset & _).
  exact (Hset (num 1) (num 0) Hv Hall).
Defined.
End CartInvariantInstance.
